(** * fhosts-proxy: the native-messaging proxy helper (package main)

    A shallow embedding of the Go program of the repository: the
    length-prefixed control channel ([readMessage], [sendMessage]), the
    mapping table ([getTargetHost], [updateMappings]), the lifecycle of the
    listener and server ([startProxy], [stopProxy]), the two request
    handlers ([handleConnect], [handleHTTP]) and the command loop of [main].

    The process-wide variables of the program are the fields of [Proc];
    everything the program does to the outside world (a frame written to
    stdout, a listener bound, a connection dialled, a status written to a
    client) is appended to the [trace] of the process, in program order. *)

From Stdlib Require Import ZArith Lia.
From Stdlib.Strings Require Import Ascii String Byte.
From stdpp Require Import gmap strings list pretty.

Local Open Scope Z_scope.
Local Open Scope string_scope.

(** ** Strings *)

Module strings.

(** [strings.HasPrefix(s, prefix)] *)
Fixpoint HasPrefix (s prefix : string) : bool :=
  match prefix, s with
  | EmptyString, _ => true
  | String c prefix', String d s' =>
      if Ascii.eqb c d then HasPrefix s' prefix' else false
  | String _ _, EmptyString => false
  end.

(** [strings.Contains(s, substr)] *)
Fixpoint Contains (s substr : string) : bool :=
  HasPrefix s substr
  || match s with
     | EmptyString => false
     | String _ s' => Contains s' substr
     end.

(** [strings.IndexByte(s, c) >= 0] *)
Fixpoint HasByte (s : string) (c : Ascii.ascii) : bool :=
  match s with
  | EmptyString => false
  | String d s' => Ascii.eqb c d || HasByte s' c
  end.

End strings.

(** ** Little-endian length prefixes ([encoding/binary]) *)

Module binary.

Definition byte_to_Z (b : byte) : Z := Z.of_N (Byte.to_N b).

(** The conversion [byte(v)] of Go: the low eight bits of [v]. *)
Definition byte_of_Z (v : Z) : byte :=
  match Byte.of_N (Z.to_N (Z.land v 255)) with
  | Some b => b
  | None => "000"%byte
  end.

(** [binary.LittleEndian.Uint32(b)]; the caller passes four bytes. *)
Definition Uint32 (b : list byte) : Z :=
  match b with
  | [b0; b1; b2; b3] =>
      Z.lor (Z.lor (Z.lor (byte_to_Z b0)
                          (Z.shiftl (byte_to_Z b1) 8))
                   (Z.shiftl (byte_to_Z b2) 16))
            (Z.shiftl (byte_to_Z b3) 24)
  | _ => 0
  end.

(** [binary.LittleEndian.PutUint32(b, v)] on a fresh four-byte slice. *)
Definition PutUint32 (v : Z) : list byte :=
  [ byte_of_Z v;
    byte_of_Z (Z.shiftr v 8);
    byte_of_Z (Z.shiftr v 16);
    byte_of_Z (Z.shiftr v 24) ].

(** The conversion [uint32(n)] of a non-negative [int]. *)
Definition uint32 (n : Z) : Z := n mod 2 ^ 32.

End binary.

(** ** Errors *)

(** The error values the command loop tells apart: the sentinel [io.EOF]
    (compared by identity in [main]), the sentinel [io.ErrUnexpectedEOF],
    and any other error, known by its text. *)
Inductive error : Type :=
  | io_EOF
  | io_ErrUnexpectedEOF
  | errorString (text : string).

(** [err.Error()] *)
Definition Error (e : error) : string :=
  match e with
  | io_EOF => "EOF"
  | io_ErrUnexpectedEOF => "unexpected EOF"
  | errorString text => text
  end.

(** [err == io.EOF] *)
Definition is_EOF (e : error) : bool :=
  match e with
  | io_EOF => true
  | _ => false
  end.

Inductive result (A : Type) : Type :=
  | Ok (a : A)
  | Err (e : error).
Arguments Ok {A} a.
Arguments Err {A} e.

(** ** Control messages *)

(** [type Message struct]. A [map[string]string] that is [nil] and one that
    is empty look up and count alike, and the program never writes into a
    table it was handed, so both are the empty [gmap]. *)
Record Message : Type := mkMessage {
  Action : string;
  Type_ : string;
  Mappings : gmap string string;
  Message_ : string;
  Port : Z;
  Count : Z
}.

Definition proxyPort : Z := 8899.

(** ** Standard input *)

(** The reader over stdin: the bytes not yet consumed, and the error the
    descriptor answers with once they are used up ([io.EOF] when the
    controller closed the pipe). *)
Record Reader : Type := mkReader {
  pending : list byte;
  closing : error
}.

(** [io.ReadFull(reader, buf)] for a buffer of [n] bytes: the bytes read (or
    the error) and the reader afterwards. A buffer of length zero is filled
    without touching the reader; a short read turns [io.EOF] into
    [io.ErrUnexpectedEOF] and hands any other error on. *)
Definition ReadFull (r : Reader) (n : nat) : result (list byte) * Reader :=
  match n with
  | O => (Ok [], r)
  | S _ =>
      if decide (n ≤ length (pending r))%nat then
        (Ok (take n (pending r)),
         {| pending := drop n (pending r); closing := closing r |})
      else
        match pending r with
        | [] => (Err (closing r), r)
        | _ :: _ =>
            (Err (if is_EOF (closing r) then io_ErrUnexpectedEOF
                  else closing r),
             {| pending := []; closing := closing r |})
        end
  end.

(** ** The parts of [net] and [net/http] the program calls *)

Module net.

(** [net.JoinHostPort(host, port)]: a host with a colon in it is taken for
    an IPv6 literal and put in brackets. *)
Definition JoinHostPort (host port : string) : string :=
  if strings.HasByte host ":"%char
  then "[" ++ host ++ "]:" ++ port
  else host ++ ":" ++ port.

End net.

Module http.

(** [url.URL], the fields the forwarder reads or writes. *)
Record URL : Type := mkURL {
  Scheme : string;
  Host : string;
  Path : string;
  RawQuery : string
}.

(** [http.Header]: field name to the values given for it, in order. *)
Definition Header : Type := gmap string (list string).

(** [http.Request]: [ReqHost] is the field [Host] of the request, [Fields]
    its [Header] map. *)
Record Request : Type := mkRequest {
  Method : string;
  URL_ : URL;
  ReqHost : string;
  Fields : Header;
  Body : list byte
}.

(** [http.Response], as far as the forwarder copies it. *)
Record Response : Type := mkResponse {
  StatusCode : Z;
  RespFields : Header;
  RespBody : list byte
}.

(** What an [http.ResponseWriter] answers when the tunnel asks for the
    connection under it: whether it is an [http.Hijacker] at all, and the
    error of [Hijack()], if any. *)
Record ResponseWriter : Type := mkResponseWriter {
  Hijacker : bool;
  Hijack_err : option string
}.

Definition StatusBadRequest : Z := 400.
Definition StatusInternalServerError : Z := 500.
Definition StatusBadGateway : Z := 502.
Definition MethodConnect : string := "CONNECT".

Section Header.
(** [textproto.CanonicalMIMEHeaderKey] *)
Variable CanonicalMIMEHeaderKey : string -> string.

(** [h.Add(key, value)] *)
Definition Add (h : Header) (key value : string) : Header :=
  <[CanonicalMIMEHeaderKey key :=
      app (default [] (h !! CanonicalMIMEHeaderKey key)) [value]]> h.

(** [h.Set(key, value)] *)
Definition Set_ (h : Header) (key value : string) : Header :=
  <[CanonicalMIMEHeaderKey key := [value]]> h.

(** [for key, values := range src { for _, value := range values
    { dst.Add(key, value) } }] *)
Definition AddAll (dst src : Header) : Header :=
  map_fold (fun key values acc => foldl (fun a v => Add a key v) acc values)
           dst src.
End Header.

(** The [Host:] line an [http.Client] puts on the wire for a request
    ([Request.Write]): the field [Host] of the request, or the host of its
    URL when that field is empty. An entry ["Host"] of the header map is
    not consulted for it. *)
Definition wire_Host (req : Request) : string :=
  if String.eqb (ReqHost req) "" then Host (URL_ req) else ReqHost req.

End http.

(** ** The process *)

(** A connection end of a tunnel. *)
Inductive Peer : Type := client | target.

(** What the process does to the world around it. *)
Inductive Effect : Type :=
  | Stdout (msg : Message)
      (** [sendMessage]: the frame of [msg] written to stdout *)
  | Listen (addr : string)
      (** [net.Listen("tcp", addr)] *)
  | GoServe (l : nat)
      (** [go server.Serve(listener)] on the listener of the [l]-th bind *)
  | ServerClose (l : nat)
  | ListenerClose (l : nat)
  | Dial (addr : string)
      (** [net.Dial("tcp", addr)] *)
  | HttpError (text : string) (code : Z)
      (** [http.Error(w, text, code)] *)
  | Hijack
  | ConnClose (c : Peer)
  | ConnWrite (c : Peer) (data : string)
  | GoCopy (dst src : Peer)
      (** [go func() { io.Copy(dst, src); dst.Close() }()] *)
  | ClientDo (req : http.Request)
      (** [client.Do(proxyReq)] *)
  | Respond (resp : http.Response).
      (** the header, status and body of [resp] copied to [w] *)

(** The package-level variables ([hostMappings], [server], [listener]), the
    number of [net.Listen] calls made so far, and the trace. A listener, and
    the server made for it, is known by the number of the call that bound
    it; [None] is [nil]. *)
Record Proc : Type := mkProc {
  hostMappings : gmap string string;
  server : option nat;
  listener : option nat;
  binds : nat;
  trace : list Effect
}.

(** The process as [main] finds it. *)
Definition boot : Proc :=
  {| hostMappings := ∅; server := None; listener := None; binds := 0%nat;
     trace := [] |}.

Definition emit (e : Effect) (p : Proc) : Proc :=
  {| hostMappings := hostMappings p; server := server p;
     listener := listener p; binds := binds p; trace := app (trace p) [e] |}.

Definition set_hostMappings (m : gmap string string) (p : Proc) : Proc :=
  {| hostMappings := m; server := server p; listener := listener p;
     binds := binds p; trace := trace p |}.

Definition set_server (s : option nat) (p : Proc) : Proc :=
  {| hostMappings := hostMappings p; server := s; listener := listener p;
     binds := binds p; trace := trace p |}.

Definition set_listener (l : option nat) (p : Proc) : Proc :=
  {| hostMappings := hostMappings p; server := server p; listener := l;
     binds := binds p; trace := trace p |}.

Definition count_bind (p : Proc) : Proc :=
  {| hostMappings := hostMappings p; server := server p;
     listener := listener p; binds := S (binds p); trace := trace p |}.

(** The frames written to stdout so far, oldest first. *)
Definition sent (p : Proc) : list Message :=
  omap (fun e => match e with Stdout m => Some m | _ => None end) (trace p).

(** [sendMessage(msg)]. [json.Marshal] has no failing case on a [Message]
    (strings, integers and a string-keyed map of strings), so the frame is
    always written. *)
Definition sendMessage (msg : Message) (p : Proc) : Proc :=
  emit (Stdout msg) p.

(** The events, as [sendMessage(Message{Type: ..., ...})] builds them. *)
Definition event (type : string) : Message :=
  {| Action := ""; Type_ := type; Mappings := ∅; Message_ := ""; Port := 0;
     Count := 0 |}.

Definition event_message (type text : string) : Message :=
  {| Action := ""; Type_ := type; Mappings := ∅; Message_ := text; Port := 0;
     Count := 0 |}.

Definition event_started (port : Z) : Message :=
  {| Action := ""; Type_ := "started"; Mappings := ∅; Message_ := "";
     Port := port; Count := 0 |}.

Definition event_mappingsUpdated (count : Z) : Message :=
  {| Action := ""; Type_ := "mappingsUpdated"; Mappings := ∅; Message_ := "";
     Port := 0; Count := count |}.

(** [logToExtension(format, args...)], the text already formatted. *)
Definition logToExtension (text : string) (p : Proc) : Proc :=
  sendMessage (event_message "log" text) p.

(** [getTargetHost(hostname)] *)
Definition getTargetHost (hostname : string) (p : Proc) : string :=
  match hostMappings p !! hostname with
  | Some mapped => mapped
  | None => hostname
  end.

(** [stopProxy()] *)
Definition stopProxy (p : Proc) : Proc :=
  let p1 :=
    match server p with
    | Some s => set_server None (emit (ServerClose s) p)
    | None => p
    end in
  let p2 :=
    match listener p1 with
    | Some l => set_listener None (emit (ListenerClose l) p1)
    | None => p1
    end in
  sendMessage (event "stopped") p2.

(** What [stopProxy] closes: the server if there is one, then the listener
    if there is one. *)
Definition closes (p : Proc) : list Effect :=
  app (match server p with Some s => [ServerClose s] | None => [] end)
      (match listener p with Some l => [ListenerClose l] | None => [] end).

(** [updateMappings(mappings)] *)
Definition updateMappings (mappings : gmap string string) (p : Proc) : Proc :=
  sendMessage (event_mappingsUpdated (Z.of_nat (size mappings)))
              (set_hostMappings mappings p).

(** ** Lifecycle *)

Section Lifecycle.

(** What the operating system answers to the [n]-th [net.Listen] of the
    process (counted from zero): [None] when the port was bound, the text
    of the error otherwise. *)
Variable net_Listen : nat -> option string.

(** [fmt.Sprintf("127.0.0.1:%d", proxyPort)] *)
Definition listenAddr : string := "127.0.0.1:" ++ pretty proxyPort.

(** [startProxy(mappings)]: the error returned ([None] is [nil]) and the
    process afterwards. On a failed bind [net.Listen] hands back a [nil]
    listener, which is what the assignment stores. *)
Definition startProxy (mappings : gmap string string) (p : Proc)
  : option error * Proc :=
  match listener p with
  | Some _ => (None, p)
  | None =>
      let p1 := set_hostMappings mappings p in
      let n := binds p1 in
      let p2 := count_bind (emit (Listen listenAddr) p1) in
      match net_Listen n with
      | Some text => (Some (errorString text), set_listener None p2)
      | None =>
          let p3 := set_listener (Some n) p2 in
          let p4 := set_server (Some n) p3 in
          let p5 := emit (GoServe n) p4 in
          (None, sendMessage (event_started proxyPort) p5)
      end
  end.

End Lifecycle.

(** ** Control channel *)

(** The frame of a body on the wire: its length as four little-endian
    bytes, then the body. *)
Definition frame (body : list byte) : list byte :=
  app (binary.PutUint32 (binary.uint32 (Z.of_nat (length body)))) body.

Section ControlChannel.

(** [json.Unmarshal(messageBytes, &msg)] on a zero [Message]: the message
    decoded, or the text of the decoding error. *)
Variable json_Unmarshal : list byte -> Message + string.

Variable net_Listen : nat -> option string.

(** [readMessage(reader)] *)
Definition readMessage (r : Reader) : result Message * Reader :=
  match ReadFull r 4 with
  | (Err err, r1) => (Err err, r1)
  | (Ok lengthBytes, r1) =>
      let length := binary.Uint32 lengthBytes in
      match ReadFull r1 (Z.to_nat length) with
      | (Err err, r2) => (Err err, r2)
      | (Ok messageBytes, r2) =>
          match json_Unmarshal messageBytes with
          | inr text => (Err (errorString text), r2)
          | inl msg => (Ok msg, r2)
          end
      end
  end.

(** Where one pass through the body of the [for] of [main] leaves the
    process: back at the top of the loop, or gone through [os.Exit]. *)
Inductive Step : Type :=
  | Continue (p : Proc) (r : Reader)
  | Exit (code : Z) (p : Proc).

(** [err == io.EOF || strings.Contains(err.Error(), "file already closed")] *)
Definition transport_gone (err : error) : bool :=
  is_EOF err || strings.Contains (Error err) "file already closed".

(** The [switch msg.Action] of [main]. *)
Definition dispatch (msg : Message) (p : Proc) (r : Reader) : Step :=
  if String.eqb (Action msg) "start" then
    match startProxy net_Listen (Mappings msg) p with
    | (Some err, p') =>
        Continue
          (sendMessage
             (event_message "error" ("Failed to start proxy: " ++ Error err))
             p') r
    | (None, p') => Continue p' r
    end
  else if String.eqb (Action msg) "updateMappings" then
    Continue (updateMappings (Mappings msg) p) r
  else if String.eqb (Action msg) "stop" then
    Exit 0 (stopProxy p)
  else if String.eqb (Action msg) "ping" then
    Continue (sendMessage (event "pong") p) r
  else
    Continue
      (sendMessage
         (event_message "error" ("Unknown action: " ++ Action msg)) p) r.

(** One pass through the body of the [for] of [main]. *)
Definition iteration (p : Proc) (r : Reader) : Step :=
  match readMessage r with
  | (Err err, r') =>
      if transport_gone err then Exit 0 (stopProxy p) else Continue p r'
  | (Ok msg, r') => dispatch msg p r'
  end.

(** The [for] of [main], for at most [fuel] passes: the exit code and the
    process at exit, or [None] when the loop is still running. *)
Fixpoint loop (fuel : nat) (p : Proc) (r : Reader) : option (Z * Proc) :=
  match fuel with
  | O => None
  | S fuel' =>
      match iteration p r with
      | Exit code p' => Some (code, p')
      | Continue p' r' => loop fuel' p' r'
      end
  end.

(** [main()] on the standard input [stdin]. *)
Definition main (fuel : nat) (stdin : Reader) : option (Z * Proc) :=
  loop fuel (sendMessage (event "ready") boot) stdin.

End ControlChannel.

(** ** Request handlers *)

Definition CRLF : string :=
  String (ascii_of_nat 13) (String (ascii_of_nat 10) EmptyString).

Section Handlers.

(** [net.SplitHostPort(hostport)]: host and port, or [None] on error. *)
Variable net_SplitHostPort : string -> option (string * string).

(** [net.Dial("tcp", addr)]: [None] when connected, the text of the error
    otherwise. *)
Variable net_Dial : string -> option string.

(** [u.Hostname()], [u.Port()] and [u.String()] of [net/url]. *)
Variable url_Hostname : http.URL -> string.
Variable url_Port : http.URL -> string.
Variable url_String : http.URL -> string.

(** [http.NewRequest(method, url, body)] *)
Variable http_NewRequest :
  string -> string -> list byte -> result http.Request.

Variable CanonicalMIMEHeaderKey : string -> string.

(** [client.Do(req)] of a fresh [http.Client]. *)
Variable client_Do : http.Request -> result http.Response.

(** [handleConnect(w, r)] *)
Definition handleConnect (w : http.ResponseWriter) (r : http.Request)
    (p : Proc) : Proc :=
  let '(host, port) :=
    match net_SplitHostPort (http.ReqHost r) with
    | Some hp => hp
    | None => (http.ReqHost r, "443")
    end in
  let targetHost := getTargetHost host p in
  let targetAddr := net.JoinHostPort targetHost port in
  let p1 :=
    if String.eqb targetHost host then p
    else logToExtension
           ("Tunneling " ++ http.ReqHost r ++ " -> " ++ targetAddr) p in
  let p2 := emit (Dial targetAddr) p1 in
  match net_Dial targetAddr with
  | Some err =>
      emit (HttpError "Bad Gateway" http.StatusBadGateway)
        (sendMessage
           (event_message "error"
              ("Failed to connect to " ++ targetAddr ++ ": " ++ err)) p2)
  | None =>
      if http.Hijacker w then
        let p3 := emit Hijack p2 in
        match http.Hijack_err w with
        | Some err =>
            emit (HttpError err http.StatusInternalServerError)
              (emit (ConnClose target) p3)
        | None =>
            emit (GoCopy client target)
              (emit (GoCopy target client)
                 (emit (ConnWrite client
                          ("HTTP/1.1 200 Connection Established"
                             ++ CRLF ++ CRLF)) p3))
        end
      else
        emit (HttpError "Hijacking not supported"
                http.StatusInternalServerError)
          (emit (ConnClose target) p2)
  end.

(** The request [handleHTTP] hands to [client.Do], or [None] when
    [http.NewRequest] refused it. *)
Definition proxyRequest (r : http.Request) (p : Proc)
  : option http.Request :=
  let host := url_Hostname (http.URL_ r) in
  let port :=
    if String.eqb (url_Port (http.URL_ r)) "" then "80"
    else url_Port (http.URL_ r) in
  let targetHost := getTargetHost host p in
  let targetURL :=
    {| http.Scheme := http.Scheme (http.URL_ r);
       http.Host := net.JoinHostPort targetHost port;
       http.Path := http.Path (http.URL_ r);
       http.RawQuery := http.RawQuery (http.URL_ r) |} in
  match http_NewRequest (http.Method r) (url_String targetURL)
          (http.Body r) with
  | Err _ => None
  | Ok proxyReq =>
      let copied :=
        http.AddAll CanonicalMIMEHeaderKey (http.Fields proxyReq)
          (http.Fields r) in
      Some {| http.Method := http.Method proxyReq;
              http.URL_ := http.URL_ proxyReq;
              http.ReqHost := http.ReqHost proxyReq;
              http.Fields := http.Set_ CanonicalMIMEHeaderKey copied
                               "Host" host;
              http.Body := http.Body proxyReq |}
  end.

(** [handleHTTP(w, r)] *)
Definition handleHTTP (r : http.Request) (p : Proc) : Proc :=
  let host := url_Hostname (http.URL_ r) in
  let targetHost := getTargetHost host p in
  let p1 :=
    if String.eqb targetHost host then p
    else logToExtension
           ("Proxying HTTP " ++ host ++ " -> " ++ targetHost) p in
  match proxyRequest r p with
  | None => emit (HttpError "Bad Request" http.StatusBadRequest) p1
  | Some proxyReq =>
      let p2 := emit (ClientDo proxyReq) p1 in
      match client_Do proxyReq with
      | Err err =>
          emit (HttpError "Bad Gateway" http.StatusBadGateway)
            (sendMessage
               (event_message "error" ("HTTP proxy error: " ++ Error err))
               p2)
      | Ok resp => emit (Respond resp) p2
      end
  end.

(** [proxyHandler(w, r)] *)
Definition proxyHandler (w : http.ResponseWriter) (r : http.Request)
    (p : Proc) : Proc :=
  if String.eqb (http.Method r) http.MethodConnect
  then handleConnect w r p
  else handleHTTP r p.

End Handlers.

(** The effects by which [handleConnect] takes over the client connection
    and runs a tunnel over it. *)
Definition tunnel_effect (e : Effect) : bool :=
  match e with
  | Hijack | ConnWrite _ _ | GoCopy _ _ => true
  | _ => false
  end.

(** The actions the [switch] of [main] has a [case] for. *)
Definition known_action (a : string) : bool :=
  String.eqb a "start" || String.eqb a "updateMappings"
  || String.eqb a "stop" || String.eqb a "ping".

(** ** Sample controllers and environments *)

(** The command [{action: ..., mappings: ...}] as the controller posts it. *)
Definition command (action : string) (mappings : gmap string string)
  : Message :=
  {| Action := action; Type_ := ""; Mappings := mappings; Message_ := "";
     Port := 0; Count := 0 |}.

(** ** The bytes on stdout *)

Section Wire.

(** [json.Marshal(msg)] *)
Variable json_Marshal : Message -> result (list byte).

(** The bytes [sendMessage(msg)] puts on stdout: nothing when
    [json.Marshal] fails, else the four bytes of [uint32(len(messageBytes))]
    and then the body. *)
Definition sendMessage_bytes (msg : Message) : list byte :=
  match json_Marshal msg with
  | Err _ => []
  | Ok messageBytes =>
      app (binary.PutUint32
             (binary.uint32 (Z.of_nat (length messageBytes))))
          messageBytes
  end.

End Wire.

(** ** Runs of commands *)

Section Commands.

Variable net_Listen : nat -> option string.

(** The [switch] of [main] taken for one decoded message after the other,
    up to the first that leaves through [os.Exit]. *)
Fixpoint commands (msgs : list Message) (p : Proc) (r : Reader) : Step :=
  match msgs with
  | [] => Continue p r
  | msg :: msgs' =>
      match dispatch net_Listen msg p r with
      | Exit code p' => Exit code p'
      | Continue p' r' => commands msgs' p' r'
      end
  end.

End Commands.

Section Frames.

Variable json_Unmarshal : list byte -> Message + string.
Variable net_Listen : nat -> option string.

(** The bodies of a run of whole frames taken one after the other the way
    the [for] of [main] takes them: a body that decodes goes through the
    [switch]; one that does not is passed over, unless [main] takes its
    error for the end of the transport and stops the proxy. *)
Fixpoint frames_run (bodies : list (list byte)) (p : Proc) (r : Reader)
  : Step :=
  match bodies with
  | [] => Continue p r
  | body :: bodies' =>
      match json_Unmarshal body with
      | inr text =>
          if transport_gone (errorString text) then Exit 0 (stopProxy p)
          else frames_run bodies' p r
      | inl msg =>
          match dispatch net_Listen msg p r with
          | Exit code p' => Exit code p'
          | Continue p' r' => frames_run bodies' p' r'
          end
      end
  end.

End Frames.

(** A body whose length fits the four-byte prefix. *)
Definition fits_prefix (body : list byte) : bool :=
  Z.ltb (Z.of_nat (length body)) (2 ^ 32).

(** The server is the one made for the listener held, and the listener
    held came out of one of the binds made so far. *)
Definition instance_ok (p : Proc) : Prop :=
  server p = listener p
  /\ match listener p with
     | Some l => (l < binds p)%nat
     | None => True
     end.

(** What a handler added to the trace of [p] on the way to [p']. *)
Definition added (p p' : Proc) : list Effect :=
  drop (length (trace p)) (trace p').

(** The effects by which a handler answers its client: an error status, a
    relayed response, or bytes written on the hijacked connection. *)
Definition answer (e : Effect) : bool :=
  match e with
  | HttpError _ _ | Respond _ | ConnWrite client _ => true
  | _ => false
  end.

(** The dials among the effects. *)
Definition is_Dial (e : Effect) : bool :=
  match e with
  | Dial _ => true
  | _ => false
  end.

(** ** The controller (background script of the extension) *)

Module background.

Definition PROXY_PORT : Z := 8899.

(** An entry of the object [hostMappings]: [{ ip, enabled }]. *)
Record Config : Type := mkConfig {
  ip : string;
  enabled : bool
}.

(** [getActiveMappings()]. [Object.entries] lists the own entries; the
    assignment [active[hostname] = config.ip] makes an own entry of
    [active] for every name but [__proto__], under which a string is
    dropped by the setter of [Object.prototype]. *)
Definition getActiveMappings (hostMappings : gmap string Config)
  : gmap string string :=
  ip <$> filter (fun kv => enabled kv.2 = true /\ kv.1 <> "__proto__")
           hostMappings.

(** What [handleProxyRequest] returns: [{ type: 'direct' }] or
    [{ type: 'http', host, port }]. *)
Inductive ProxyInfo : Type :=
  | direct
  | http_proxy (host : string) (port : Z).

(** [requestInfo]: its [tabId], and [new URL(requestInfo.url).hostname]. *)
Record RequestInfo : Type := mkRequestInfo {
  tabId : Z;
  hostname : string
}.

(** [handleProxyRequest(requestInfo)], over the variables [hostMappings],
    [enabledTabs] and [proxyReady] of the script. A name that
    [hostMappings] only inherits ([constructor]) reads as a value without
    [enabled], as an absent one does. *)
Definition handleProxyRequest (hostMappings : gmap string Config)
    (enabledTabs : gset Z) (proxyReady : bool) (requestInfo : RequestInfo)
  : ProxyInfo :=
  if bool_decide (tabId requestInfo = -1)
     || negb (bool_decide (tabId requestInfo ∈ enabledTabs))
  then direct
  else
    match hostMappings !! hostname requestInfo with
    | Some mapping =>
        if enabled mapping then
          if negb proxyReady then http_proxy "127.0.0.1" 1
          else http_proxy "127.0.0.1" PROXY_PORT
        else direct
    | None => direct
    end.

(** [updateProxyMappings()]: the message posted to the native port, if
    any. *)
Definition updateProxyMappings (nativePort proxyReady : bool)
    (hostMappings : gmap string Config) : option Message :=
  if nativePort && proxyReady
  then Some (command "updateMappings" (getActiveMappings hostMappings))
  else None.

(** The variables of the script the listener on the native port reads or
    writes: [hostMappings], [enabledTabs], whether [nativePort] is set,
    [proxyReady], [proxyError] and [proxyConnecting]. *)
Record Controller : Type := mkController {
  hostMappings : gmap string Config;
  enabledTabs : gset Z;
  nativePort : bool;
  proxyReady : bool;
  proxyError : bool;
  proxyConnecting : bool
}.

(** What the listener does besides writing variables: a message posted
    to the proxy, or the promise of [connectToProxy] settled. *)
Inductive Reaction : Type :=
  | Post (msg : Message)
  | Resolve
  | Reject (text : string).

(** The listener [nativePort.onMessage] installed by [connectToProxy], on
    one event of the proxy. An event without text reads as [undefined],
    for which [message.message || 'Proxy error'] takes the default. *)
Definition onMessage (message : Message) (s : Controller)
  : Controller * list Reaction :=
  if String.eqb (Type_ message) "ready" then
    ({| hostMappings := hostMappings s; enabledTabs := enabledTabs s;
        nativePort := nativePort s; proxyReady := proxyReady s;
        proxyError := false; proxyConnecting := proxyConnecting s |},
     [Post (command "start" (getActiveMappings (hostMappings s)))])
  else if String.eqb (Type_ message) "started" then
    ({| hostMappings := hostMappings s; enabledTabs := enabledTabs s;
        nativePort := nativePort s; proxyReady := true;
        proxyError := false; proxyConnecting := false |},
     [Resolve])
  else if String.eqb (Type_ message) "stopped" then
    ({| hostMappings := hostMappings s; enabledTabs := enabledTabs s;
        nativePort := nativePort s; proxyReady := false;
        proxyError := proxyError s;
        proxyConnecting := proxyConnecting s |},
     [])
  else if String.eqb (Type_ message) "error" then
    ({| hostMappings := hostMappings s; enabledTabs := enabledTabs s;
        nativePort := nativePort s; proxyReady := proxyReady s;
        proxyError := true; proxyConnecting := false |},
     [Reject (if String.eqb (Message_ message) "" then "Proxy error"
              else Message_ message)])
  else (s, []).

End background.

Module Sample.

(** A machine on which the port is free, and one on which it is taken. *)
Definition port_free : nat -> option string := fun _ => None.
Definition port_taken : nat -> option string :=
  fun _ =>
    Some "listen tcp 127.0.0.1:8899: bind: address already in use".

Definition table_ab : gmap string string := {["a" := "b"]}.
Definition table_ac : gmap string string := {["a" := "c"]}.

(** The process after a first [start] that bound the port. *)
Definition running : Proc := (startProxy port_free table_ab boot).2.

Definition dq : string := String (ascii_of_nat 34) EmptyString.

(** The bodies [{action: ping}] and [{action: reload}], as JSON text. *)
Definition action_body (action : string) : list byte :=
  list_byte_of_string
    ("{" ++ dq ++ "action" ++ dq ++ ":" ++ dq ++ action ++ dq ++ "}").
Definition ping_body : list byte := action_body "ping".
Definition reload_body : list byte := action_body "reload".

(** A decoder that knows the two bodies above and turns every other
    input down the way [encoding/json] words its syntax errors. *)
Definition json_Unmarshal (b : list byte) : Message + string :=
  if List.list_eq_dec Byte.byte_eq_dec b ping_body
  then inl (command "ping" ∅)
  else if List.list_eq_dec Byte.byte_eq_dec b reload_body
  then inl (command "reload" ∅)
  else match b with
       | [] => inr "unexpected end of JSON input"
       | _ :: _ =>
           inr "invalid character '}' looking for beginning of value"
       end.

Definition stdin_of (bytes : list byte) : Reader :=
  {| pending := bytes; closing := io_EOF |}.

(** The CONNECT request for [a:443] on a machine where nothing answers,
    with the table [a -> 127.0.0.2]. *)
Definition table_a2 : gmap string string := {["a" := "127.0.0.2"]}.

Definition connect_a : http.Request :=
  {| http.Method := "CONNECT";
     http.URL_ := {| http.Scheme := ""; http.Host := "a:443";
                     http.Path := ""; http.RawQuery := "" |};
     http.ReqHost := "a:443";
     http.Fields := ∅;
     http.Body := [] |}.

Definition net_SplitHostPort (hostport : string)
  : option (string * string) :=
  if String.eqb hostport "a:443" then Some ("a", "443") else None.

Definition nothing_answers (addr : string) : option string :=
  Some ("dial tcp " ++ addr ++ ": connect: connection refused").

Definition plain_writer : http.ResponseWriter :=
  {| http.Hijacker := true; http.Hijack_err := None |}.

(** The request [GET http://a/] with the table [a -> 127.0.0.3], and what
    [net/url] and [net/http] answer on it. *)
Definition table_a3 : gmap string string := {["a" := "127.0.0.3"]}.

Definition get_a : http.Request :=
  {| http.Method := "GET";
     http.URL_ := {| http.Scheme := "http"; http.Host := "a";
                     http.Path := "/"; http.RawQuery := "" |};
     http.ReqHost := "a";
     http.Fields := {["Accept" := ["*/*"]]};
     http.Body := [] |}.

Definition url_Hostname (u : http.URL) : string := http.Host u.
Definition url_Port (u : http.URL) : string := "".
Definition url_String (u : http.URL) : string :=
  http.Scheme u ++ "://" ++ http.Host u ++ http.Path u.

Definition http_NewRequest (method url : string) (body : list byte)
  : result http.Request :=
  if String.eqb url "http://127.0.0.3:80/" then
    Ok {| http.Method := method;
          http.URL_ := {| http.Scheme := "http";
                          http.Host := "127.0.0.3:80";
                          http.Path := "/"; http.RawQuery := "" |};
          http.ReqHost := "127.0.0.3:80";
          http.Fields := ∅;
          http.Body := body |}
  else Err (errorString "parse error").

Definition canonical (key : string) : string := key.

(** A body whose [mappings] hold a number under the key
    [file already closed], and a decoder that turns it down with a type
    error naming the field by its path, key included. *)
Definition closed_key_body : list byte :=
  list_byte_of_string
    ("{" ++ dq ++ "mappings" ++ dq ++ ":{" ++ dq ++ "file already closed"
     ++ dq ++ ":1}}").

Definition json_Unmarshal_keyed (b : list byte) : Message + string :=
  if List.list_eq_dec Byte.byte_eq_dec b closed_key_body
  then inr ("json: cannot unmarshal number into Go struct field "
            ++ "Message.mappings.file already closed of type string")
  else json_Unmarshal b.

(** A marshaller that knows the [ping] command. *)
Definition json_Marshal (msg : Message) : result (list byte) :=
  if String.eqb (Action msg) "ping" && String.eqb (Type_ msg) ""
     && String.eqb (Message_ msg) "" && Nat.eqb (size (Mappings msg)) 0
     && Z.eqb (Port msg) 0 && Z.eqb (Count msg) 0
  then Ok ping_body
  else Err (errorString "json: unsupported value").

(** A machine on which the port is taken at the first bind and free from
    the second on. *)
Definition second_try (n : nat) : option string :=
  match n with
  | O => port_taken n
  | S _ => None
  end.

(** A network on which every dial connects, a response writer that is no
    hijacker, an upstream that refuses connections, and a
    [http.NewRequest] that turns every request down. *)
Definition all_reached (addr : string) : option string := None.

Definition no_hijacker : http.ResponseWriter :=
  {| http.Hijacker := false; http.Hijack_err := None |}.

Definition upstream_down (req : http.Request) : result http.Response :=
  Err (errorString "dial tcp 127.0.0.3:80: connect: connection refused").

Definition refusing_NewRequest (method url : string) (body : list byte)
  : result http.Request :=
  Err (errorString "net/http: invalid method").

(** A controller with one enabled entry, and a request for it from tab 7. *)
Definition controller_table : gmap string background.Config :=
  {["a" := {| background.ip := "127.0.0.3"; background.enabled := true |}]}.

Definition enabled_tabs : gset Z := {[7]}.

Definition request_on_tab : background.RequestInfo :=
  {| background.tabId := 7; background.hostname := "a" |}.

(** The controller as [connectToProxy] leaves it while it waits for the
    proxy to come up. *)
Definition connecting : background.Controller :=
  {| background.hostMappings := controller_table;
     background.enabledTabs := enabled_tabs;
     background.nativePort := true;
     background.proxyReady := false;
     background.proxyError := false;
     background.proxyConnecting := true |}.

End Sample.

(** * Properties *)

(** ** Mapping store *)

Lemma getTargetHost_mapped (h t : string) (p : Proc) :
  hostMappings p !! h = Some t -> getTargetHost h p = t.
Proof. unfold getTargetHost. intros ->. reflexivity. Qed.

Lemma getTargetHost_unmapped (h : string) (p : Proc) :
  hostMappings p !! h = None -> getTargetHost h p = h.
Proof. unfold getTargetHost. intros ->. reflexivity. Qed.

(** C1. Whatever table [M] the store holds, [getTargetHost h] is [M[h]]
    when [h] is a key of [M] and [h] itself when it is not; it has no error
    result. *)
Theorem getTargetHost_spec (M : gmap string string) (h : string) (p : Proc)
    (HM : hostMappings p = M) :
  getTargetHost h p = match M !! h with Some t => t | None => h end.
Proof.
  subst M. destruct (hostMappings p !! h) as [t|] eqn:E.
  - exact (getTargetHost_mapped h t p E).
  - exact (getTargetHost_unmapped h p E).
Qed.

Lemma getTargetHost_spec_witness :
  getTargetHost "a" (updateMappings Sample.table_ab boot) = "b"
  /\ getTargetHost "z" (updateMappings Sample.table_ab boot) = "z".
Proof.
  split.
  - rewrite (getTargetHost_spec Sample.table_ab "a"
               (updateMappings Sample.table_ab boot) eq_refl).
    reflexivity.
  - rewrite (getTargetHost_spec Sample.table_ab "z"
               (updateMappings Sample.table_ab boot) eq_refl).
    reflexivity.
Defined.

(** ** Trace bookkeeping *)

Lemma sent_emit_Stdout (m : Message) (p : Proc) :
  sent (sendMessage m p) = app (sent p) [m].
Proof.
  unfold sent, sendMessage, emit. simpl.
  rewrite omap_app. reflexivity.
Qed.

Lemma sent_emit_other (e : Effect) (p : Proc) :
  (forall m, e <> Stdout m) -> sent (emit e p) = sent p.
Proof.
  intros He. unfold sent, emit. simpl. rewrite omap_app. simpl.
  destruct e; try (rewrite app_nil_r; reflexivity).
  exfalso. eapply He. reflexivity.
Qed.

(** ** updateMappings *)

(** C6. [updateMappings m] installs [m] as the whole table whether or not a
    listener is held, leaves the instance alone, and writes one
    [mappingsUpdated] event whose count is the number of entries of [m];
    after two replacements in a row a lookup sees the second table only. *)
Theorem updateMappings_replaces (net_Listen : nat -> option string)
    (m m' : gmap string string) (p : Proc) (r : Reader) (h : string) :
  dispatch net_Listen (command "updateMappings" m) p r
    = Continue (updateMappings m p) r
  /\ hostMappings (updateMappings m p) = m
  /\ server (updateMappings m p) = server p
  /\ listener (updateMappings m p) = listener p
  /\ trace (updateMappings m p)
     = app (trace p) [Stdout (event_mappingsUpdated (Z.of_nat (size m)))]
  /\ Count (event_mappingsUpdated (Z.of_nat (size m))) = Z.of_nat (size m)
  /\ getTargetHost h (updateMappings m' (updateMappings m p))
     = match m' !! h with Some t => t | None => h end.
Proof.
  repeat split.
Qed.

(** ** stopProxy *)

Lemma stopProxy_trace (p : Proc) :
  trace (stopProxy p) = app (trace p) (app (closes p) [Stdout (event "stopped")]).
Proof.
  unfold stopProxy, closes.
  destruct (server p) as [s|] eqn:Es; destruct (listener p) as [l|] eqn:El;
    simpl; rewrite ?El; simpl; rewrite <- ?app_assoc; reflexivity.
Qed.

Lemma stopProxy_fields (p : Proc) :
  server (stopProxy p) = None /\ listener (stopProxy p) = None
  /\ hostMappings (stopProxy p) = hostMappings p
  /\ binds (stopProxy p) = binds p.
Proof.
  unfold stopProxy.
  destruct (server p) as [s|] eqn:Es; destruct (listener p) as [l|] eqn:El;
    simpl; rewrite ?El; simpl; rewrite ?Es; auto.
Qed.

Lemma stopProxy_idle (q : Proc) :
  server q = None -> listener q = None ->
  stopProxy q = sendMessage (event "stopped") q.
Proof. intros Hs Hl. unfold stopProxy. rewrite Hs, Hl. reflexivity. Qed.

Lemma stopProxy_repeated (p : Proc) (n : nat) :
  trace (Nat.iter (S n) stopProxy p)
    = app (trace p)
          (app (closes p) (repeat (Stdout (event "stopped")) (S n)))
  /\ server (Nat.iter (S n) stopProxy p) = None
  /\ listener (Nat.iter (S n) stopProxy p) = None.
Proof.
  induction n as [|n (IHt & IHs & IHl)].
  - destruct (stopProxy_fields p) as (Hs & Hl & _).
    split; [apply stopProxy_trace|auto].
  - change (Nat.iter (S (S n)) stopProxy p)
      with (stopProxy (Nat.iter (S n) stopProxy p)).
    rewrite (stopProxy_idle _ IHs IHl).
    split; [|split; assumption].
    cbn [sendMessage emit trace]. rewrite IHt, <- !app_assoc.
    change (repeat (Stdout (event "stopped")) (S (S n)))
      with (Stdout (event "stopped")
              :: repeat (Stdout (event "stopped")) (S n)).
    rewrite (repeat_cons (S n)). reflexivity.
Qed.

(** C9. [stopProxy] has no error result. With no server and no listener it
    only writes [stopped]; with an instance it closes the server, then the
    listener, then writes [stopped], and leaves both variables [nil]; called
    again, any number of times, it writes [stopped] once more each time and
    changes nothing else. *)
Theorem stopProxy_idempotent (p : Proc) :
  trace (stopProxy p)
    = app (trace p) (app (closes p) [Stdout (event "stopped")])
  /\ server (stopProxy p) = None
  /\ listener (stopProxy p) = None
  /\ hostMappings (stopProxy p) = hostMappings p
  /\ closes (stopProxy p) = []
  /\ stopProxy (stopProxy p) = sendMessage (event "stopped") (stopProxy p)
  /\ forall n,
       trace (Nat.iter (S n) stopProxy p)
       = app (trace p)
             (app (closes p) (repeat (Stdout (event "stopped")) (S n))).
Proof.
  destruct (stopProxy_fields p) as (Hs & Hl & Hm & Hb).
  split; [apply stopProxy_trace|].
  repeat split; try assumption.
  - unfold closes. rewrite Hs, Hl. reflexivity.
  - apply stopProxy_idle; assumption.
  - apply stopProxy_repeated.
Qed.

(** ** startProxy *)

Lemma startProxy_running (net_Listen : nat -> option string)
    (m : gmap string string) (p : Proc) (l : nat) :
  listener p = Some l -> startProxy net_Listen m p = (None, p).
Proof. unfold startProxy. intros ->. reflexivity. Qed.

Lemma startProxy_bound (net_Listen : nat -> option string)
    (m : gmap string string) (p : Proc) :
  listener p = None -> net_Listen (binds p) = None ->
  exists p',
    startProxy net_Listen m p = (None, p')
    /\ hostMappings p' = m
    /\ listener p' = Some (binds p)
    /\ server p' = Some (binds p)
    /\ trace p'
       = app (trace p)
             [Listen listenAddr; GoServe (binds p);
              Stdout (event_started proxyPort)].
Proof.
  intros Hl Hb. unfold startProxy. rewrite Hl. simpl. rewrite Hb.
  eexists. split; [reflexivity|]. simpl.
  rewrite <- !app_assoc. repeat split.
Qed.

(** C3, as the program has it. While a listener is held, [startProxy m]
    returns [nil] and is a no-op in the full sense: the process is left as
    it was, so nothing is bound again, the installed table stays, and no
    event is written, not even a second [started]; the [start] command as a
    whole then does nothing but go back to reading. *)
Theorem startProxy_while_running_is_silent
    (net_Listen : nat -> option string) (m : gmap string string)
    (p : Proc) (r : Reader) (l : nat) (Hrun : listener p = Some l) :
  startProxy net_Listen m p = (None, p)
  /\ dispatch net_Listen (command "start" m) p r = Continue p r
  /\ sent (startProxy net_Listen m p).2 = sent p.
Proof.
  pose proof (startProxy_running net_Listen m p l Hrun) as E.
  split; [exact E|]. split.
  - unfold dispatch. simpl. rewrite E. reflexivity.
  - rewrite E. reflexivity.
Qed.

Lemma startProxy_while_running_is_silent_witness :
  startProxy Sample.port_free Sample.table_ac Sample.running
    = (None, Sample.running)
  /\ dispatch Sample.port_free (command "start" Sample.table_ac)
       Sample.running {| pending := []; closing := io_EOF |}
     = Continue Sample.running {| pending := []; closing := io_EOF |}
  /\ sent (startProxy Sample.port_free Sample.table_ac Sample.running).2
     = sent Sample.running.
Proof.
  apply (startProxy_while_running_is_silent Sample.port_free Sample.table_ac
           Sample.running _ 0%nat).
  reflexivity.
Defined.

(** C3, counterexample to a second [started] event: the first [start] is
    answered with [started], the second, sent while the listener is held,
    with nothing, so stdout carries one [started] event and not two. *)
Lemma second_start_is_not_answered :
  listener Sample.running = Some 0%nat
  /\ sent Sample.running = [event_started proxyPort]
  /\ sent (startProxy Sample.port_free Sample.table_ac Sample.running).2
     <> app (sent Sample.running) [event_started proxyPort].
Proof.
  split; [reflexivity|]. split; [reflexivity|].
  rewrite (startProxy_running Sample.port_free Sample.table_ac
             Sample.running 0%nat eq_refl).
  simpl. discriminate.
Qed.

(** C10. With no listener held, a [start m] whose bind fails has already
    put [m] in the store: the error of [net.Listen] comes back, no listener
    and no server are stored, the only thing done to the world is the bind
    attempt, and lookups go by [m] from then on; [main] reports the failure
    as an [error] event. *)
Theorem startProxy_failed_bind_keeps_mappings
    (net_Listen : nat -> option string) (m : gmap string string)
    (p : Proc) (r : Reader) (text : string) (h : string)
    (Hidle : listener p = None)
    (Hbind : net_Listen (binds p) = Some text) :
  let p' := (startProxy net_Listen m p).2 in
  (startProxy net_Listen m p).1 = Some (errorString text)
  /\ hostMappings p' = m
  /\ listener p' = None
  /\ server p' = server p
  /\ trace p' = app (trace p) [Listen listenAddr]
  /\ getTargetHost h p' = match m !! h with Some t => t | None => h end
  /\ dispatch net_Listen (command "start" m) p r
     = Continue
         (sendMessage
            (event_message "error" ("Failed to start proxy: " ++ text)) p') r.
Proof.
  unfold dispatch, startProxy. simpl. rewrite Hidle. simpl. rewrite Hbind.
  simpl. repeat split.
Qed.

Lemma startProxy_failed_bind_keeps_mappings_witness :
  hostMappings (startProxy Sample.port_taken Sample.table_ab boot).2
    = Sample.table_ab
  /\ listener (startProxy Sample.port_taken Sample.table_ab boot).2 = None
  /\ getTargetHost "a" (startProxy Sample.port_taken Sample.table_ab boot).2
     = "b".
Proof.
  pose proof (startProxy_failed_bind_keeps_mappings Sample.port_taken
                Sample.table_ab boot {| pending := []; closing := io_EOF |}
                "listen tcp 127.0.0.1:8899: bind: address already in use"
                "a" eq_refl eq_refl) as H.
  cbv zeta in H. destruct H as (_ & Hm & Hl & _ & _ & Hg & _).
  split; [exact Hm|]. split; [exact Hl|].
  rewrite Hg. reflexivity.
Defined.

(** ** The command switch *)

(** C8. A decoded message whose action is none of [start],
    [updateMappings], [stop], [ping] makes the loop write exactly one
    event, [error] with the text [Unknown action: ] followed by the action,
    and go on reading; the table, the server and the listener are as
    before. *)
Theorem unknown_action_reports_error
    (json_Unmarshal : list byte -> Message + string)
    (net_Listen : nat -> option string)
    (msg : Message) (p : Proc) (r r' : Reader)
    (Hread : readMessage json_Unmarshal r = (Ok msg, r'))
    (Hunknown : known_action (Action msg) = false) :
  let p' :=
    sendMessage (event_message "error" ("Unknown action: " ++ Action msg)) p in
  iteration json_Unmarshal net_Listen p r = Continue p' r'
  /\ sent p' = app (sent p) [event_message "error"
                               ("Unknown action: " ++ Action msg)]
  /\ hostMappings p' = hostMappings p
  /\ server p' = server p
  /\ listener p' = listener p.
Proof.
  cbv zeta. split; [|split; [apply sent_emit_Stdout|repeat split]].
  unfold iteration. rewrite Hread. unfold dispatch.
  unfold known_action in Hunknown.
  apply orb_false_elim in Hunknown as [Hunknown Hping].
  apply orb_false_elim in Hunknown as [Hunknown Hstop].
  apply orb_false_elim in Hunknown as [Hstart Hupdate].
  rewrite Hstart, Hupdate, Hstop, Hping. reflexivity.
Qed.

Lemma unknown_action_reports_error_witness :
  iteration Sample.json_Unmarshal Sample.port_free Sample.running
    (Sample.stdin_of (frame Sample.reload_body))
  = Continue
      (sendMessage (event_message "error" "Unknown action: reload")
         Sample.running)
      (Sample.stdin_of []).
Proof.
  apply (unknown_action_reports_error Sample.json_Unmarshal Sample.port_free
           (command "reload" ∅) Sample.running
           (Sample.stdin_of (frame Sample.reload_body)) (Sample.stdin_of [])).
  - vm_compute. reflexivity.
  - reflexivity.
Defined.

(** ** Framing *)

Lemma byte_to_Z_of_Z (v : Z) :
  binary.byte_to_Z (binary.byte_of_Z v) = Z.land v 255.
Proof.
  unfold binary.byte_to_Z, binary.byte_of_Z.
  assert (Hr : 0 <= Z.land v 255 <= 255).
  { change 255 with (Z.ones 8). rewrite Z.land_ones by lia.
    pose proof (Z.mod_pos_bound v (2 ^ 8) ltac:(lia)). change (Z.ones 8) with 255. lia. }
  destruct (Byte.of_N (Z.to_N (Z.land v 255))) as [b|] eqn:E.
  - apply Byte.to_of_N in E. rewrite E. lia.
  - apply Byte.of_N_None_iff in E. lia.
Qed.

Lemma Uint32_PutUint32 (v : Z) :
  0 <= v < 2 ^ 32 -> binary.Uint32 (binary.PutUint32 v) = v.
Proof.
  intros Hv. unfold binary.Uint32, binary.PutUint32.
  rewrite !byte_to_Z_of_Z.
  change 255 with (Z.ones 8). rewrite !Z.land_ones by lia.
  apply Z.bits_inj'. intros i Hi.
  rewrite !Z.lor_spec.
  rewrite !Z.shiftl_spec by lia.
  destruct (Z.ltb_spec i 8); [|destruct (Z.ltb_spec i 16); [|destruct (Z.ltb_spec i 24); [|destruct (Z.ltb_spec i 32)]]].
  all: repeat first
    [ rewrite Z.mod_pow2_bits_low by lia
    | rewrite Z.mod_pow2_bits_high by lia
    | rewrite (Z.testbit_neg_r _ (i - _)) by lia
    | rewrite Z.shiftr_spec by lia ].
  all: rewrite ?orb_false_r, ?orb_false_l; try (f_equal; lia).

  symmetry. destruct (Z.eq_dec v 0) as [->|]; [apply Z.bits_0|].
  assert (Z.log2 v < 32) by (apply Z.log2_lt_pow2; lia).
  apply Z.bits_above_log2; lia.
Qed.

Lemma ReadFull_app (bs rest : list byte) (c : error) :
  ReadFull {| pending := app bs rest; closing := c |} (length bs)
  = (Ok bs, {| pending := rest; closing := c |}).
Proof.
  destruct bs as [|b bs]; [reflexivity|].
  unfold ReadFull. cbn [length pending closing].
  destruct (decide _) as [_|Hn].
  - change (S (length bs)) with (length (b :: bs)).
    rewrite take_app_length, drop_app_length. reflexivity.
  - exfalso. apply Hn. rewrite length_app. simpl. lia.
Qed.

Lemma readMessage_frame (json_Unmarshal : list byte -> Message + string)
    (body rest : list byte) (c : error) :
  Z.of_nat (length body) < 2 ^ 32 ->
  readMessage json_Unmarshal {| pending := app (frame body) rest; closing := c |}
  = (match json_Unmarshal body with
     | inl msg => Ok msg
     | inr text => Err (errorString text)
     end, {| pending := rest; closing := c |}).
Proof.
  intros Hlen. unfold readMessage, frame.
  rewrite <- app_assoc.
  change 4%nat with (length (binary.PutUint32 (binary.uint32 (Z.of_nat (length body))))).
  rewrite ReadFull_app.
  unfold binary.uint32. rewrite Z.mod_small by lia.
  rewrite Uint32_PutUint32 by lia.
  rewrite Nat2Z.id, ReadFull_app.
  destruct (json_Unmarshal body); reflexivity.
Qed.

Lemma ReadFull_shape (r : Reader) (n : nat) :
  closing (ReadFull r n).2 = closing r
  /\ (length (pending (ReadFull r n).2) <= length (pending r))%nat
  /\ match (ReadFull r n).1 with
     | Ok _ => (length (pending (ReadFull r n).2) + n = length (pending r))%nat
     | Err e =>
         ((ReadFull r n).2 = r /\ e = closing r)
         \/ (length (pending (ReadFull r n).2) < length (pending r))%nat
     end.
Proof.
  unfold ReadFull. destruct n as [|n]; [simpl; repeat split; lia|].
  destruct (decide _) as [Hle|Hgt]; cbn [fst snd pending closing].
  - rewrite length_drop. repeat split; lia.
  - destruct (pending r) as [|b bs] eqn:E; cbn [fst snd pending closing length].
    + rewrite E. split; [reflexivity|]. split; [simpl; lia|].
      left. split; reflexivity.
    + split; [reflexivity|]. split; [simpl; lia|]. right. simpl. lia.
Qed.

Lemma dispatch_shape (net_Listen : nat -> option string) (msg : Message)
    (p : Proc) (r : Reader) :
  match dispatch net_Listen msg p r with
  | Exit code p' => code = 0 /\ p' = stopProxy p
  | Continue _ r' => r' = r
  end.
Proof.
  unfold dispatch.
  repeat match goal with
         | |- context [if ?b then _ else _] => destruct b
         end;
    try destruct (startProxy net_Listen (Mappings msg) p) as [[e|] p'];
    auto.
Qed.

Section Progress.
Variable json_Unmarshal : list byte -> Message + string.
Variable net_Listen : nat -> option string.

Lemma iteration_progress (p : Proc) (r : Reader) :
  transport_gone (closing r) = true ->
  match iteration json_Unmarshal net_Listen p r with
  | Exit code p' => code = 0 /\ exists q, p' = stopProxy q
  | Continue _ r' =>
      closing r' = closing r
      /\ (length (pending r') < length (pending r))%nat
  end.
Proof.
  intros Hgone. unfold iteration, readMessage.
  pose proof (ReadFull_shape r 4) as (Hc1 & Hle1 & H1).
  destruct (ReadFull r 4) as [[lengthBytes|e1] r1];
    cbn [fst snd] in *.
  - pose proof (ReadFull_shape r1 (Z.to_nat (binary.Uint32 lengthBytes)))
      as (Hc2 & Hle2 & H2).
    destruct (ReadFull r1 _) as [[messageBytes|e2] r2]; cbn [fst snd] in *.
    + destruct (json_Unmarshal messageBytes) as [msg|text].
      * pose proof (dispatch_shape net_Listen msg p r2) as Hd.
        destruct (dispatch net_Listen msg p r2) as [p' r'|code p'].
        -- subst r'. split; [congruence|lia].
        -- destruct Hd as [-> ->]. eauto.
      * destruct (transport_gone (errorString text)); [eauto|].
        split; [congruence|lia].
    + destruct (transport_gone e2); [eauto|].
      split; [congruence|lia].
  - destruct (transport_gone e1) eqn:Ee; [eauto|].
    destruct H1 as [[-> ->]|Hlt]; [congruence|].
    split; [congruence|lia].
Qed.

Lemma loop_exits (n : nat) :
  forall (p : Proc) (r : Reader),
    transport_gone (closing r) = true ->
    (length (pending r) < n)%nat ->
    exists q, loop json_Unmarshal net_Listen n p r = Some (0, stopProxy q).
Proof.
  induction n as [|n IH]; intros p r Hgone Hlen; [lia|].
  cbn [loop].
  pose proof (iteration_progress p r Hgone) as Hstep.
  destruct (iteration json_Unmarshal net_Listen p r) as [p' r'|code p'].
  - destruct Hstep as [Hc Hlt]. apply IH; [congruence|lia].
  - destruct Hstep as [-> [q ->]]. eauto.
Qed.
End Progress.

(** ** The command loop *)

(** A frame whose body [json.Unmarshal] turns down, the frame of length
    zero among them, is read in full and dropped when the text of the
    decoding error does not say that the file is already closed: the loop
    neither exits nor touches the process, and the frame that follows is
    decoded and dispatched as if it had come first. *)
Theorem bad_frame_is_skipped
    (json_Unmarshal : list byte -> Message + string)
    (net_Listen : nat -> option string)
    (bad good rest : list byte) (text : string) (msg : Message)
    (c : error) (p : Proc)
    (Hbad : json_Unmarshal bad = inr text)
    (Htext : strings.Contains text "file already closed" = false)
    (Hgood : json_Unmarshal good = inl msg)
    (Hlbad : Z.of_nat (length bad) < 2 ^ 32)
    (Hlgood : Z.of_nat (length good) < 2 ^ 32) :
  let after_bad := {| pending := app (frame good) rest; closing := c |} in
  let after_good := {| pending := rest; closing := c |} in
  iteration json_Unmarshal net_Listen p
    {| pending := app (frame bad) (app (frame good) rest); closing := c |}
    = Continue p after_bad
  /\ iteration json_Unmarshal net_Listen p after_bad
     = dispatch net_Listen msg p after_good
  /\ forall fuel,
       loop json_Unmarshal net_Listen (S fuel) p
         {| pending := app (frame bad) (app (frame good) rest);
            closing := c |}
       = loop json_Unmarshal net_Listen fuel p after_bad.
Proof.
  cbv zeta.
  assert (Hskip :
    iteration json_Unmarshal net_Listen p
      {| pending := app (frame bad) (app (frame good) rest); closing := c |}
    = Continue p {| pending := app (frame good) rest; closing := c |}).
  { unfold iteration. rewrite readMessage_frame by assumption.
    rewrite Hbad. unfold transport_gone. cbn [is_EOF Error orb].
    rewrite Htext. reflexivity. }
  split; [exact Hskip|]. split.
  - unfold iteration. rewrite readMessage_frame by assumption.
    rewrite Hgood. reflexivity.
  - intros fuel. cbn [loop]. rewrite Hskip. reflexivity.
Qed.

Lemma bad_frame_is_skipped_witness :
  iteration Sample.json_Unmarshal Sample.port_free Sample.running
    (Sample.stdin_of (app (frame []) (app (frame Sample.ping_body) [])))
  = Continue Sample.running
      (Sample.stdin_of (app (frame Sample.ping_body) []))
  /\ iteration Sample.json_Unmarshal Sample.port_free Sample.running
       (Sample.stdin_of (app (frame Sample.ping_body) []))
     = Continue (sendMessage (event "pong") Sample.running)
         (Sample.stdin_of []).
Proof.
  pose proof (bad_frame_is_skipped Sample.json_Unmarshal Sample.port_free
                [] Sample.ping_body [] "unexpected end of JSON input"
                (command "ping" ∅) io_EOF Sample.running) as H.
  destruct H as (H1 & H2 & _).
  - reflexivity.
  - reflexivity.
  - vm_compute. reflexivity.
  - simpl. lia.
  - vm_compute. reflexivity.
  - split; [exact H1|exact H2].
Defined.

Lemma sent_stopProxy (p : Proc) :
  sent (stopProxy p) = app (sent p) [event "stopped"].
Proof.
  unfold sent. rewrite stopProxy_trace, !omap_app. unfold closes.
  destruct (server p); destruct (listener p); reflexivity.
Qed.



Lemma startProxy_extends (net_Listen : nat -> option string)
    (m : gmap string string) (p : Proc) :
  exists es, trace (startProxy net_Listen m p).2 = app (trace p) es.
Proof.
  unfold startProxy. destruct (listener p).
  - exists []. simpl. rewrite app_nil_r. reflexivity.
  - destruct (net_Listen _); simpl; rewrite <- ?app_assoc; eauto.
Qed.

Lemma dispatch_extends (net_Listen : nat -> option string) (msg : Message)
    (p : Proc) (r : Reader) :
  match dispatch net_Listen msg p r with
  | Continue p' _ => exists es, trace p' = app (trace p) es
  | Exit code p' => code = 0 /\ p' = stopProxy p
  end.
Proof.
  unfold dispatch.
  destruct (String.eqb (Action msg) "start").
  { destruct (startProxy_extends net_Listen (Mappings msg) p) as [es Hes].
    destruct (startProxy net_Listen (Mappings msg) p) as [[e|] p'];
      cbn [snd] in Hes; cbn [sendMessage emit trace]; rewrite ?Hes;
      rewrite <- ?app_assoc; eauto. }
  destruct (String.eqb (Action msg) "updateMappings"); [simpl; eauto|].
  destruct (String.eqb (Action msg) "stop"); [auto|].
  destruct (String.eqb (Action msg) "ping"); simpl; eauto.
Qed.

Lemma iteration_extends (json_Unmarshal : list byte -> Message + string)
    (net_Listen : nat -> option string) (p : Proc) (r : Reader) :
  match iteration json_Unmarshal net_Listen p r with
  | Continue p' _ => exists es, trace p' = app (trace p) es
  | Exit code p' => code = 0 /\ p' = stopProxy p
  end.
Proof.
  unfold iteration.
  destruct (readMessage json_Unmarshal r) as [[msg|err] r'].
  - apply dispatch_extends.
  - destruct (transport_gone err); [auto|].
    exists []. rewrite app_nil_r. reflexivity.
Qed.

Lemma loop_exit_shape (json_Unmarshal : list byte -> Message + string)
    (net_Listen : nat -> option string) (fuel : nat) :
  forall (p : Proc) (r : Reader) (code : Z) (p' : Proc),
    loop json_Unmarshal net_Listen fuel p r = Some (code, p') ->
    code = 0
    /\ exists q es, p' = stopProxy q /\ trace q = app (trace p) es.
Proof.
  induction fuel as [|fuel IH]; intros p r code p' Hrun; [discriminate|].
  cbn [loop] in Hrun.
  pose proof (iteration_extends json_Unmarshal net_Listen p r) as Hstep.
  destruct (iteration json_Unmarshal net_Listen p r) as [p1 r1|code1 p1].
  - destruct Hstep as [es1 Hes1].
    destruct (IH p1 r1 code p' Hrun) as (Hc & q & es & Hq & Hes).
    split; [exact Hc|]. exists q, (app es1 es).
    split; [exact Hq|]. rewrite Hes, Hes1, app_assoc. reflexivity.
  - destruct Hstep as [-> ->]. inversion Hrun; subst.
    split; [reflexivity|]. exists p, [].
    rewrite app_nil_r. auto.
Qed.

(** C7. Once the controller's end of stdin is gone (what is left of the
    input ends in [io.EOF], or in an error whose text says the file is
    already closed), the loop is bound to leave. Reading at the end of the
    input runs [stopProxy] and exits with code 0: the server is closed if
    there is one, then the listener if there is one, and [stopped] is
    written last. From any process and any input left, a bounded number
    of passes ends the same way: the process at exit is [stopProxy] of a
    process the run led to, whose trace ends in the closing of its server
    and listener and then [stopped], with no server and no listener
    left, and the exit code is 0. *)
Theorem main_exits_when_transport_gone
    (json_Unmarshal : list byte -> Message + string)
    (net_Listen : nat -> option string)
    (stdin : Reader) (p : Proc)
    (Hgone : transport_gone (closing stdin) = true) :
  iteration json_Unmarshal net_Listen p
    {| pending := []; closing := closing stdin |} = Exit 0 (stopProxy p)
  /\ trace (stopProxy p)
     = app (trace p)
         (app (match server p with
               | Some s => [ServerClose s]
               | None => []
               end)
            (app (match listener p with
                  | Some l => [ListenerClose l]
                  | None => []
                  end)
               [Stdout (event "stopped")]))
  /\ (exists q es,
        loop json_Unmarshal net_Listen (S (length (pending stdin))) p stdin
          = Some (0, stopProxy q)
        /\ trace q = app (trace p) es
        /\ trace (stopProxy q)
           = app (trace q)
               (app (match server q with
                     | Some s => [ServerClose s]
                     | None => []
                     end)
                  (app (match listener q with
                        | Some l => [ListenerClose l]
                        | None => []
                        end)
                     [Stdout (event "stopped")]))
        /\ server (stopProxy q) = None
        /\ listener (stopProxy q) = None
        /\ last (sent (stopProxy q)) = Some (event "stopped"))
  /\ exists q es,
       main json_Unmarshal net_Listen (S (length (pending stdin))) stdin
         = Some (0, stopProxy q)
       /\ trace q = Stdout (event "ready") :: es.
Proof.
  assert (Hsent : forall q, last (sent (stopProxy q)) = Some (event "stopped")).
  { intros q. rewrite sent_stopProxy. apply last_snoc. }
  assert (Htrace : forall q,
    trace (stopProxy q)
    = app (trace q)
        (app (match server q with
              | Some s => [ServerClose s]
              | None => []
              end)
           (app (match listener q with
                 | Some l => [ListenerClose l]
                 | None => []
                 end)
              [Stdout (event "stopped")]))).
  { intros q. rewrite stopProxy_trace. unfold closes.
    rewrite <- app_assoc. reflexivity. }
  assert (Hrun : forall p0,
    exists q es,
      loop json_Unmarshal net_Listen (S (length (pending stdin))) p0 stdin
        = Some (0, stopProxy q)
      /\ trace q = app (trace p0) es).
  { intros p0.
    destruct (loop_exits json_Unmarshal net_Listen
                (S (length (pending stdin))) p0 stdin Hgone) as [q Hq]; [lia|].
    destruct (loop_exit_shape _ _ _ _ _ _ _ Hq) as (_ & q' & es & Hq' & Hes).
    exists q', es. rewrite Hq, Hq'. auto. }
  split; [|split; [apply Htrace|split]].
  - unfold iteration, readMessage, ReadFull. cbn [pending closing length].
    destruct (decide _) as [Hle|_]; [lia|]. rewrite Hgone. reflexivity.
  - destruct (Hrun p) as (q & es & Hq & Hes).
    exists q, es. destruct (stopProxy_fields q) as (Hs & Hl & _).
    auto 10.
  - unfold main.
    destruct (Hrun (sendMessage (event "ready") boot)) as (q & es & Hq & Hes).
    exists q, es. split; [exact Hq|exact Hes].
Qed.

Lemma main_exits_when_transport_gone_witness :
  trace (stopProxy Sample.running)
  = app (trace Sample.running)
      [ServerClose 0; ListenerClose 0; Stdout (event "stopped")]
  /\ exists q es,
       main Sample.json_Unmarshal Sample.port_free 24
         (Sample.stdin_of
            (app (frame Sample.ping_body) ["{"%byte; "}"%byte]))
       = Some (0, stopProxy q)
       /\ trace q = Stdout (event "ready") :: es.
Proof.
  split.
  - exact (proj1 (proj2
      (main_exits_when_transport_gone Sample.json_Unmarshal
         Sample.port_free (Sample.stdin_of []) Sample.running eq_refl))).
  - exact (proj2 (proj2 (proj2
      (main_exits_when_transport_gone Sample.json_Unmarshal
         Sample.port_free
         (Sample.stdin_of
            (app (frame Sample.ping_body) ["{"%byte; "}"%byte]))
         boot eq_refl)))).
Defined.

(** ** The tunnel engine *)

Lemma HasPrefix_app (t b : string) : strings.HasPrefix (t ++ b) t = true.
Proof.
  induction t as [|c t IH]; [destruct b; reflexivity|].
  simpl. rewrite Ascii.eqb_refl. exact IH.
Qed.

Lemma Contains_app (a t b : string) :
  strings.Contains (a ++ t ++ b) t = true.
Proof.
  induction a as [|c a IH].
  - change ("" ++ t ++ b) with (t ++ b).
    pose proof (HasPrefix_app t b) as H.
    destruct (t ++ b); simpl in *; rewrite H; reflexivity.
  - change (String c a ++ t ++ b) with (String c (a ++ t ++ b)).
    cbn [strings.Contains]. rewrite IH. apply orb_true_r.
Qed.

(** C5. When the dial to the substituted target fails, [handleConnect]
    does three things after the substitution (and after the log line, when
    the host was substituted): it dials, writes one [error] event whose
    text names the failed connect and the target address, and answers the
    client [502 Bad Gateway]. That is all: nothing is hijacked, no
    acknowledgment is written, no copy loop is started, and the variables
    of the process are untouched. *)
Theorem handleConnect_unreachable
    (net_SplitHostPort : string -> option (string * string))
    (net_Dial : string -> option string)
    (w : http.ResponseWriter) (r : http.Request) (p : Proc)
    (host port err : string)
    (Hsplit : match net_SplitHostPort (http.ReqHost r) with
              | Some hp => hp
              | None => (http.ReqHost r, "443")
              end = (host, port))
    (Hdial : net_Dial (net.JoinHostPort (getTargetHost host p) port)
             = Some err) :
  let targetAddr := net.JoinHostPort (getTargetHost host p) port in
  let text := "Failed to connect to " ++ targetAddr ++ ": " ++ err in
  let logged :=
    if String.eqb (getTargetHost host p) host then []
    else [Stdout (event_message "log"
                    ("Tunneling " ++ http.ReqHost r ++ " -> " ++ targetAddr))]
  in
  let p' := handleConnect net_SplitHostPort net_Dial w r p in
  trace p'
    = app (trace p)
          (app logged
               [Dial targetAddr;
                Stdout (event_message "error" text);
                HttpError "Bad Gateway" http.StatusBadGateway])
  /\ strings.Contains text targetAddr = true
  /\ existsb tunnel_effect (drop (length (trace p)) (trace p')) = false
  /\ hostMappings p' = hostMappings p
  /\ server p' = server p
  /\ listener p' = listener p.
Proof.
  cbv zeta.
  assert (Htrace :
    trace (handleConnect net_SplitHostPort net_Dial w r p)
    = app (trace p)
        (app (if String.eqb (getTargetHost host p) host then []
              else [Stdout (event_message "log"
                      ("Tunneling " ++ http.ReqHost r ++ " -> "
                       ++ net.JoinHostPort (getTargetHost host p) port))])
           [Dial (net.JoinHostPort (getTargetHost host p) port);
            Stdout (event_message "error"
                      ("Failed to connect to "
                       ++ net.JoinHostPort (getTargetHost host p) port
                       ++ ": " ++ err));
            HttpError "Bad Gateway" http.StatusBadGateway])).
  { unfold handleConnect. rewrite Hsplit, Hdial.
    destruct (String.eqb (getTargetHost host p) host); simpl;
      rewrite <- !app_assoc; reflexivity. }
  split; [exact Htrace|]. split; [apply Contains_app|]. split.
  - rewrite Htrace, drop_app_length.
    destruct (String.eqb (getTargetHost host p) host); reflexivity.
  - unfold handleConnect. rewrite Hsplit, Hdial.
    destruct (String.eqb (getTargetHost host p) host); repeat split.
Qed.

Lemma handleConnect_unreachable_witness :
  sent (handleConnect Sample.net_SplitHostPort Sample.nothing_answers
          Sample.plain_writer Sample.connect_a
          (set_hostMappings Sample.table_a2 boot))
  = [ event_message "log" "Tunneling a:443 -> 127.0.0.2:443";
      event_message "error"
        ("Failed to connect to 127.0.0.2:443: "
         ++ "dial tcp 127.0.0.2:443: connect: connection refused") ].
Proof.
  pose proof (handleConnect_unreachable Sample.net_SplitHostPort
                Sample.nothing_answers Sample.plain_writer Sample.connect_a
                (set_hostMappings Sample.table_a2 boot) "a" "443"
                "dial tcp 127.0.0.2:443: connect: connection refused"
                eq_refl eq_refl) as H.
  cbv zeta in H. destruct H as (Htrace & _).
  unfold sent. rewrite Htrace. reflexivity.
Defined.

(** ** The HTTP forwarder *)

(** C2, as the program has it. For a plain request whose hostname [h] is
    mapped to [t], the request [handleHTTP] hands to [client.Do] is the one
    [http.NewRequest] made for the rewritten URL: its URL host is
    [t:port] (port 80 when the request names none), so that is where the
    client connects, and its header map carries [Host: h]. The field
    [Host] of the request, which [http.NewRequest] sets to the host of the
    URL and from which the client writes the [Host:] line, is left as it
    was, so the line on the wire reads [t:port] and not [h]. *)
Theorem handleHTTP_Host_on_the_wire
    (url_Hostname url_Port url_String : http.URL -> string)
    (http_NewRequest : string -> string -> list byte -> result http.Request)
    (CanonicalMIMEHeaderKey : string -> string)
    (r : http.Request) (p : Proc) (h t : string) (req0 : http.Request)
    (Hhost : url_Hostname (http.URL_ r) = h)
    (Hmap : hostMappings p !! h = Some t)
    (Hnew :
       http_NewRequest (http.Method r)
         (url_String
            {| http.Scheme := http.Scheme (http.URL_ r);
               http.Host :=
                 net.JoinHostPort t
                   (if String.eqb (url_Port (http.URL_ r)) "" then "80"
                    else url_Port (http.URL_ r));
               http.Path := http.Path (http.URL_ r);
               http.RawQuery := http.RawQuery (http.URL_ r) |})
         (http.Body r) = Ok req0)
    (Hfield : http.ReqHost req0 = http.Host (http.URL_ req0))
    (Hparse :
       http.Host (http.URL_ req0)
       = net.JoinHostPort t
           (if String.eqb (url_Port (http.URL_ r)) "" then "80"
            else url_Port (http.URL_ r)))
    (Hcanon : CanonicalMIMEHeaderKey "Host" = "Host") :
  exists proxyReq,
    proxyRequest url_Hostname url_Port url_String http_NewRequest
      CanonicalMIMEHeaderKey r p = Some proxyReq
    /\ http.Fields proxyReq !! "Host" = Some [h]
    /\ http.Host (http.URL_ proxyReq)
       = net.JoinHostPort t
           (if String.eqb (url_Port (http.URL_ r)) "" then "80"
            else url_Port (http.URL_ r))
    /\ http.wire_Host proxyReq
       = net.JoinHostPort t
           (if String.eqb (url_Port (http.URL_ r)) "" then "80"
            else url_Port (http.URL_ r)).
Proof.
  unfold proxyRequest.
  rewrite Hhost, (getTargetHost_mapped h t p Hmap), Hnew.
  eexists. split; [reflexivity|]. cbn [http.Fields http.URL_].
  split; [|split].
  - unfold http.Set_. rewrite Hcanon. apply lookup_insert_eq.
  - exact Hparse.
  - unfold http.wire_Host. cbn [http.ReqHost http.URL_].
    rewrite <- Hparse.
    destruct (String.eqb (http.ReqHost req0) ""); [reflexivity|exact Hfield].
Qed.

Lemma handleHTTP_Host_on_the_wire_witness :
  exists proxyReq,
    proxyRequest Sample.url_Hostname Sample.url_Port Sample.url_String
      Sample.http_NewRequest Sample.canonical Sample.get_a
      (set_hostMappings Sample.table_a3 boot) = Some proxyReq
    /\ http.Fields proxyReq !! "Host" = Some ["a"]
    /\ http.Host (http.URL_ proxyReq) = "127.0.0.3:80"
    /\ http.wire_Host proxyReq = "127.0.0.3:80".
Proof.
  exact (handleHTTP_Host_on_the_wire Sample.url_Hostname Sample.url_Port
           Sample.url_String Sample.http_NewRequest Sample.canonical
           Sample.get_a (set_hostMappings Sample.table_a3 boot)
           "a" "127.0.0.3"
           {| http.Method := "GET";
              http.URL_ := {| http.Scheme := "http";
                              http.Host := "127.0.0.3:80";
                              http.Path := "/"; http.RawQuery := "" |};
              http.ReqHost := "127.0.0.3:80";
              http.Fields := ∅;
              http.Body := [] |}
           eq_refl eq_refl eq_refl eq_refl eq_refl eq_refl).
Defined.

(** ** Frames written and read back *)

(** X1. What [sendMessage] writes for a message is what [readMessage]
    reads back: when the marshalled body fits the prefix and decodes to the
    message, the reader returns that message and has consumed exactly the
    bytes written, whatever follows them. *)
Theorem sendMessage_readMessage_roundtrip
    (json_Marshal : Message -> result (list byte))
    (json_Unmarshal : list byte -> Message + string)
    (msg : Message) (body rest : list byte) (c : error)
    (Hmarshal : json_Marshal msg = Ok body)
    (Hfit : Z.of_nat (length body) < 2 ^ 32)
    (Hdecode : json_Unmarshal body = inl msg) :
  length (sendMessage_bytes json_Marshal msg) = (4 + length body)%nat
  /\ readMessage json_Unmarshal
       {| pending := app (sendMessage_bytes json_Marshal msg) rest;
          closing := c |}
     = (Ok msg, {| pending := rest; closing := c |}).
Proof.
  unfold sendMessage_bytes. rewrite Hmarshal. split.
  - rewrite length_app. reflexivity.
  - change (app (binary.PutUint32 _) body) with (frame body).
    rewrite readMessage_frame by assumption.
    rewrite Hdecode. reflexivity.
Qed.

Lemma sendMessage_readMessage_roundtrip_witness :
  readMessage Sample.json_Unmarshal
    (Sample.stdin_of
       (app (sendMessage_bytes Sample.json_Marshal (command "ping" ∅))
            (frame Sample.reload_body)))
  = (Ok (command "ping" ∅), Sample.stdin_of (frame Sample.reload_body)).
Proof.
  exact (proj2 (sendMessage_readMessage_roundtrip Sample.json_Marshal
                  Sample.json_Unmarshal (command "ping" ∅) Sample.ping_body
                  (frame Sample.reload_body) io_EOF eq_refl eq_refl eq_refl)).
Defined.

Lemma ReadFull_short (l : list byte) (n : nat) :
  (length l < n)%nat ->
  ReadFull {| pending := l; closing := io_EOF |} n
  = (Err (match l with [] => io_EOF | _ :: _ => io_ErrUnexpectedEOF end),
     {| pending := []; closing := io_EOF |}).
Proof.
  intros Hlt. unfold ReadFull. destruct n as [|n]; [lia|].
  cbn [pending closing].
  destruct (decide _) as [Hle|_]; [lia|].
  destruct l; reflexivity.
Qed.

Lemma iteration_at_EOF (json_Unmarshal : list byte -> Message + string)
    (net_Listen : nat -> option string) (p : Proc) :
  iteration json_Unmarshal net_Listen p {| pending := []; closing := io_EOF |}
  = Exit 0 (stopProxy p).
Proof.
  unfold iteration, readMessage. rewrite ReadFull_short by (simpl; lia).
  reflexivity.
Qed.

Lemma readMessage_truncated (json_Unmarshal : list byte -> Message + string)
    (body : list byte) (k : nat) :
  Z.of_nat (length body) < 2 ^ 32 ->
  (k < length (frame body))%nat ->
  exists e,
    readMessage json_Unmarshal
      {| pending := take k (frame body); closing := io_EOF |}
    = (Err e, {| pending := []; closing := io_EOF |})
    /\ (e = io_EOF \/ e = io_ErrUnexpectedEOF).
Proof.
  intros Hfit Hk. unfold frame in *.
  set (prefix := binary.PutUint32 (binary.uint32 (Z.of_nat (length body)))) in *.
  assert (Hp : length prefix = 4%nat) by reflexivity.
  rewrite length_app, Hp in Hk.
  unfold readMessage.
  destruct (decide (k < 4)%nat) as [Hlt|Hge].
  - rewrite ReadFull_short by (rewrite length_take, length_app; lia).
    eexists. split; [reflexivity|].
    destruct (take k (app prefix body)); auto.
  - rewrite take_app, Hp.
    rewrite take_ge by lia.
    pose proof (ReadFull_app prefix (take (k - 4) body) io_EOF) as HR.
    rewrite Hp in HR. rewrite HR. clear HR.
    subst prefix. unfold binary.uint32. rewrite Z.mod_small by lia.
    rewrite Uint32_PutUint32 by lia. rewrite Nat2Z.id.
    rewrite ReadFull_short by (rewrite length_take; lia).
    eexists. split; [reflexivity|].
    destruct (take (k - 4) body); auto.
Qed.

(** X2. A last frame that the end of the input cuts short, anywhere in
    its prefix or in its body, is never decoded nor dispatched: the loop
    stops the proxy and exits with code 0, within two passes, from the
    process as it stood before the frame. *)
Theorem truncated_frame_is_dropped
    (json_Unmarshal : list byte -> Message + string)
    (net_Listen : nat -> option string)
    (body : list byte) (k : nat) (p : Proc)
    (Hfit : Z.of_nat (length body) < 2 ^ 32)
    (Hcut : (k < length (frame body))%nat) :
  loop json_Unmarshal net_Listen 2 p
    {| pending := take k (frame body); closing := io_EOF |}
  = Some (0, stopProxy p).
Proof.
  destruct (readMessage_truncated json_Unmarshal body k Hfit Hcut)
    as (e & Hread & [-> | ->]).
  - cbn [loop]. unfold iteration at 1. rewrite Hread. reflexivity.
  - cbn [loop]. unfold iteration at 1. rewrite Hread.
    cbn [transport_gone is_EOF Error orb].
    replace (strings.Contains "unexpected EOF" "file already closed")
      with false by (vm_compute; reflexivity).
    rewrite iteration_at_EOF. reflexivity.
Qed.

Lemma truncated_frame_is_dropped_witness :
  loop Sample.json_Unmarshal Sample.port_free 2 Sample.running
    (Sample.stdin_of (take 9 (frame Sample.ping_body)))
  = Some (0, stopProxy Sample.running).
Proof.
  apply (truncated_frame_is_dropped Sample.json_Unmarshal Sample.port_free
           Sample.ping_body 9 Sample.running).
  - vm_compute. reflexivity.
  - vm_compute. lia.
Defined.

(** ** The loop as a run of commands *)

Lemma dispatch_reader (net_Listen : nat -> option string) (msg : Message)
    (p : Proc) (r r0 : Reader) :
  dispatch net_Listen msg p r
  = match dispatch net_Listen msg p r0 with
    | Continue p' _ => Continue p' r
    | Exit code p' => Exit code p'
    end.
Proof.
  unfold dispatch.
  repeat match goal with
         | |- context [if ?b then _ else _] => destruct b
         end;
    try destruct (startProxy net_Listen (Mappings msg) p) as [[e|] p'];
    reflexivity.
Qed.

Lemma forallb_cons_true {A} (f : A -> bool) (x : A) (l : list A) :
  forallb f (x :: l) = true -> f x = true /\ forallb f l = true.
Proof. simpl. intros H. apply andb_true_iff in H. exact H. Qed.

(** X3. Over an input made of whole frames, each body fitting the
    prefix, after which the transport is gone, the byte-level loop takes
    the bodies one by one, in order and each once: a body that decodes
    goes through the switch, and a [stop] ends the run where it stands; a
    body that does not decode is passed over, unless its error is taken
    for a transport that is gone, in which case the proxy is stopped there
    and the frames behind are never read; and when the frames are used up
    the proxy is stopped. The exit code is 0 in every case, after at most
    one pass per frame and one more. *)
Theorem loop_runs_frames
    (json_Unmarshal : list byte -> Message + string)
    (net_Listen : nat -> option string)
    (bodies : list (list byte)) (c : error) (p : Proc)
    (Hgone : transport_gone c = true)
    (Hfit : forallb fits_prefix bodies = true) :
  loop json_Unmarshal net_Listen (S (length bodies)) p
    {| pending := concat (map frame bodies); closing := c |}
  = Some (0,
          match frames_run json_Unmarshal net_Listen bodies p
                  {| pending := []; closing := c |} with
          | Exit _ p' => p'
          | Continue p' _ => stopProxy p'
          end).
Proof.
  revert p. induction bodies as [|body bodies IH]; intros p.
  - cbn [length loop map concat frames_run].
    unfold iteration, readMessage, ReadFull. cbn [pending closing length].
    destruct (decide _) as [Hle|_]; [lia|]. rewrite Hgone. reflexivity.
  - apply forallb_cons_true in Hfit as [Hfit1 Hfit].
    specialize (IH Hfit).
    unfold fits_prefix in Hfit1. apply Z.ltb_lt in Hfit1.
    cbn [length map concat].
    change (loop json_Unmarshal net_Listen (S (S (length bodies))) p
              {| pending := app (frame body) (concat (map frame bodies));
                 closing := c |})
      with (match iteration json_Unmarshal net_Listen p
                    {| pending := app (frame body) (concat (map frame bodies));
                       closing := c |} with
            | Exit code p' => Some (code, p')
            | Continue p' r' =>
                loop json_Unmarshal net_Listen (S (length bodies)) p' r'
            end).
    unfold iteration. rewrite readMessage_frame by assumption.
    cbn [frames_run].
    destruct (json_Unmarshal body) as [msg|text].
    + rewrite (dispatch_reader net_Listen msg p _
                 {| pending := []; closing := c |}).
      pose proof (dispatch_shape net_Listen msg p
                    {| pending := []; closing := c |}) as Hshape.
      destruct (dispatch net_Listen msg p {| pending := []; closing := c |})
        as [p' r'|code p'].
      * subst r'. apply IH.
      * destruct Hshape as [-> ->]. reflexivity.
    + destruct (transport_gone (errorString text)); [reflexivity|apply IH].
Qed.

Lemma loop_runs_frames_witness :
  option_map (fun out => sent out.2)
    (loop Sample.json_Unmarshal_keyed Sample.port_free 5 Sample.running
       (Sample.stdin_of
          (concat (map frame [Sample.ping_body; []; Sample.closed_key_body;
                              Sample.reload_body]))))
  = Some [event_started proxyPort; event "pong"; event "stopped"].
Proof.
  pose proof (loop_runs_frames Sample.json_Unmarshal_keyed Sample.port_free
                [Sample.ping_body; []; Sample.closed_key_body;
                 Sample.reload_body] io_EOF
                Sample.running eq_refl eq_refl) as H.
  unfold Sample.stdin_of.
  change 5%nat
    with (S (length [Sample.ping_body; []; Sample.closed_key_body;
                     Sample.reload_body])).
  rewrite H. vm_compute. reflexivity.
Defined.

(** ** Every exit *)

(** X4. However [main] comes to leave, on [stop] or on a transport that is
    gone, and whatever the input was, the exit code is 0, the first event
    on stdout is [ready], the last is [stopped], and no server or listener
    is left. *)
Theorem main_exit_shape
    (json_Unmarshal : list byte -> Message + string)
    (net_Listen : nat -> option string)
    (fuel : nat) (stdin : Reader) (code : Z) (p' : Proc)
    (Hrun : main json_Unmarshal net_Listen fuel stdin = Some (code, p')) :
  code = 0
  /\ (exists rest, sent p' = event "ready" :: rest)
  /\ last (sent p') = Some (event "stopped")
  /\ server p' = None
  /\ listener p' = None.
Proof.
  unfold main in Hrun.
  destruct (loop_exit_shape _ _ _ _ _ _ _ Hrun) as (Hc & q & es & -> & Hes).
  destruct (stopProxy_fields q) as (Hs & Hl & _).
  split; [exact Hc|]. split; [|split; [|auto]].
  - unfold sent. rewrite stopProxy_trace, Hes. cbn [sendMessage emit trace boot].
    rewrite !omap_app. simpl. eauto.
  - unfold sent. rewrite stopProxy_trace, !omap_app. simpl.
    rewrite app_assoc. apply last_snoc.
Qed.

Lemma main_exit_shape_witness :
  exists rest,
    sent (stopProxy (sendMessage (event "pong")
                       (sendMessage (event "ready") boot)))
    = event "ready" :: rest.
Proof.
  exact (proj1 (proj2
    (main_exit_shape Sample.json_Unmarshal Sample.port_free 3
       (Sample.stdin_of (frame Sample.ping_body)) 0
       (stopProxy (sendMessage (event "pong")
                     (sendMessage (event "ready") boot)))
       eq_refl))).
Defined.

(** X5. A read error that stays and is neither [io.EOF] nor says that the
    file is already closed keeps the loop going round for ever: however
    many passes are allowed it has not exited, and the process (its trace
    included) is as it was. *)
Theorem loop_spins_on_persistent_error
    (json_Unmarshal : list byte -> Message + string)
    (net_Listen : nat -> option string)
    (c : error) (p : Proc) (fuel : nat)
    (Hstay : transport_gone c = false) :
  loop json_Unmarshal net_Listen fuel p {| pending := []; closing := c |}
    = None
  /\ iteration json_Unmarshal net_Listen p {| pending := []; closing := c |}
     = Continue p {| pending := []; closing := c |}.
Proof.
  assert (Hit :
    iteration json_Unmarshal net_Listen p {| pending := []; closing := c |}
    = Continue p {| pending := []; closing := c |}).
  { unfold iteration, readMessage, ReadFull. cbn [pending closing length].
    destruct (decide _) as [Hle|_]; [lia|]. rewrite Hstay. reflexivity. }
  split; [|exact Hit].
  induction fuel as [|fuel IH]; [reflexivity|].
  cbn [loop]. rewrite Hit. exact IH.
Qed.

Lemma loop_spins_on_persistent_error_witness :
  loop Sample.json_Unmarshal Sample.port_free 1000 Sample.running
    {| pending := []; closing := errorString "read /dev/stdin: input/output error" |}
  = None.
Proof.
  exact (proj1 (loop_spins_on_persistent_error Sample.json_Unmarshal
                  Sample.port_free
                  (errorString "read /dev/stdin: input/output error")
                  Sample.running 1000 eq_refl)).
Defined.

(** ** The instance *)

Lemma startProxy_keeps_instance (net_Listen : nat -> option string)
    (m : gmap string string) (p : Proc) :
  instance_ok p -> instance_ok (startProxy net_Listen m p).2.
Proof.
  intros [Hsl Hlt]. unfold startProxy.
  destruct (listener p) as [l|] eqn:El.
  - cbn [snd]. unfold instance_ok. rewrite El. auto.
  - destruct (net_Listen _); cbn; unfold instance_ok; cbn.
    + rewrite Hsl. auto.
    + split; [reflexivity|lia].
Qed.

Lemma stopProxy_keeps_instance (p : Proc) : instance_ok (stopProxy p).
Proof.
  destruct (stopProxy_fields p) as (Hs & Hl & _).
  unfold instance_ok. rewrite Hs, Hl. auto.
Qed.

(** X6. The server and the listener go together: at start-up there is
    neither, and every pass of the loop, whatever it reads, leaves the
    process with both [nil] or with the server made for the listener held,
    that listener being one the process bound; a pass that exits leaves
    none. *)
Theorem iteration_keeps_instance
    (json_Unmarshal : list byte -> Message + string)
    (net_Listen : nat -> option string) (p : Proc) (r : Reader)
    (Hok : instance_ok p) :
  instance_ok (sendMessage (event "ready") boot)
  /\ match iteration json_Unmarshal net_Listen p r with
     | Continue p' _ => instance_ok p'
     | Exit _ p' => instance_ok p' /\ listener p' = None
     end.
Proof.
  split; [split; [reflexivity|exact I]|].
  unfold iteration.
  destruct (readMessage json_Unmarshal r) as [[msg|err] r'].
  - unfold dispatch.
    destruct (String.eqb (Action msg) "start").
    { pose proof (startProxy_keeps_instance net_Listen (Mappings msg) p Hok)
        as Hok'.
      destruct (startProxy net_Listen (Mappings msg) p) as [[e|] p'];
        exact Hok'. }
    destruct (String.eqb (Action msg) "updateMappings"); [exact Hok|].
    destruct (String.eqb (Action msg) "stop").
    { split; [apply stopProxy_keeps_instance|apply stopProxy_fields]. }
    destruct (String.eqb (Action msg) "ping"); exact Hok.
  - destruct (transport_gone err); [|exact Hok].
    split; [apply stopProxy_keeps_instance|apply stopProxy_fields].
Qed.

Lemma iteration_keeps_instance_witness :
  instance_ok
    (sendMessage (event_message "error" "Unknown action: reload")
       Sample.running).
Proof.
  exact (proj2 (iteration_keeps_instance Sample.json_Unmarshal
                  Sample.port_free Sample.running
                  (Sample.stdin_of (frame Sample.reload_body))
                  (conj eq_refl (le_n 1)))).
Defined.

(** X7. A [start] that finds no listener and a free port installs the
    table, binds [127.0.0.1:8899], stores the listener and a server for
    it, starts serving, and then writes [started] with port 8899, in that
    order; lookups go by the new table. *)
Theorem start_binds_and_reports
    (net_Listen : nat -> option string) (m : gmap string string)
    (p : Proc) (r : Reader) (h : string)
    (Hidle : listener p = None)
    (Hfree : net_Listen (binds p) = None) :
  exists p',
    dispatch net_Listen (command "start" m) p r = Continue p' r
    /\ added p p'
       = [Listen "127.0.0.1:8899"; GoServe (binds p);
          Stdout (event_started 8899)]
    /\ listener p' = Some (binds p)
    /\ server p' = Some (binds p)
    /\ binds p' = S (binds p)
    /\ getTargetHost h p' = match m !! h with Some t => t | None => h end.
Proof.
  unfold dispatch, startProxy. cbn [Action command Mappings String.eqb].
  simpl String.eqb. cbv iota. rewrite Hidle. cbn [binds set_hostMappings].
  rewrite Hfree. eexists. split; [reflexivity|].
  unfold added. cbn. rewrite <- !app_assoc. rewrite drop_app_length.
  repeat split.
Qed.

Lemma start_binds_and_reports_witness :
  exists p',
    dispatch Sample.port_free (command "start" Sample.table_ab) boot
      (Sample.stdin_of []) = Continue p' (Sample.stdin_of [])
    /\ listener p' = Some 0%nat
    /\ getTargetHost "a" p' = "b".
Proof.
  destruct (start_binds_and_reports Sample.port_free Sample.table_ab boot
              (Sample.stdin_of []) "a" eq_refl eq_refl)
    as (p' & H1 & _ & H2 & _ & _ & H3).
  exists p'. split; [exact H1|]. split; [exact H2|exact H3].
Defined.

(** X8. A failed [start] can be tried again: when the bind of a first
    [start] fails and that of a second succeeds, the process ends up
    serving on the second listener with the table of the second command,
    and stdout has an [error] event for the first and a [started] event
    for the second. *)
Theorem start_retry_after_failed_bind
    (net_Listen : nat -> option string) (m1 m2 : gmap string string)
    (p : Proc) (r : Reader) (text : string)
    (Hidle : listener p = None)
    (Hfail : net_Listen (binds p) = Some text)
    (Hfree : net_Listen (S (binds p)) = None) :
  exists p',
    commands net_Listen [command "start" m1; command "start" m2] p r
      = Continue p' r
    /\ listener p' = Some (S (binds p))
    /\ server p' = Some (S (binds p))
    /\ hostMappings p' = m2
    /\ sent p'
       = app (sent p)
           [event_message "error" ("Failed to start proxy: " ++ text);
            event_started proxyPort].
Proof.
  set (p1 := sendMessage
               (event_message "error" ("Failed to start proxy: " ++ text))
               (set_listener None
                  (count_bind
                     (emit (Listen listenAddr) (set_hostMappings m1 p))))).
  assert (H1 : dispatch net_Listen (command "start" m1) p r = Continue p1 r).
  { unfold dispatch, startProxy. cbn [Action command Mappings].
    simpl String.eqb. cbv iota. rewrite Hidle.
    cbn [binds set_hostMappings]. rewrite Hfail. reflexivity. }
  destruct (startProxy_bound net_Listen m2 p1 eq_refl Hfree)
    as (p' & Hstart & Hm & Hl & Hs & Htrace).
  exists p'. cbn [commands]. rewrite H1.
  split.
  { unfold dispatch. cbn [Action command Mappings]. simpl String.eqb.
    cbv iota. rewrite Hstart. reflexivity. }
  split; [exact Hl|]. split; [exact Hs|]. split; [exact Hm|].
  unfold sent. rewrite Htrace. subst p1. cbn [trace sendMessage emit
    set_listener count_bind set_hostMappings].
  rewrite !omap_app. cbn. rewrite app_nil_r, <- !app_assoc. reflexivity.
Qed.

Lemma start_retry_after_failed_bind_witness :
  exists p',
    commands
      Sample.second_try
      [command "start" Sample.table_ab; command "start" Sample.table_ac]
      boot (Sample.stdin_of []) = Continue p' (Sample.stdin_of [])
    /\ listener p' = Some 1%nat
    /\ hostMappings p' = Sample.table_ac.
Proof.
  destruct (start_retry_after_failed_bind
              Sample.second_try
              Sample.table_ab Sample.table_ac boot (Sample.stdin_of [])
              "listen tcp 127.0.0.1:8899: bind: address already in use"
              eq_refl eq_refl eq_refl)
    as (p' & H1 & H2 & _ & H3 & _).
  exists p'. split; [exact H1|]. split; [exact H2|exact H3].
Defined.

(** ** What a command can and cannot do *)

(** X9. [stop] is the only command that ends the process: the switch
    leaves through [os.Exit] exactly when the action is [stop], and then
    with code 0 after [stopProxy]; no other message, known or not, makes
    the process exit. *)
Theorem dispatch_exits_iff_stop
    (net_Listen : nat -> option string) (msg : Message) (p : Proc)
    (r : Reader) :
  ((exists code p', dispatch net_Listen msg p r = Exit code p')
   <-> Action msg = "stop")
  /\ (forall code p',
        dispatch net_Listen msg p r = Exit code p' ->
        code = 0 /\ p' = stopProxy p).
Proof.
  split.
  - unfold dispatch.
    destruct (String.eqb_spec (Action msg) "start") as [E|_].
    { rewrite E. split; [|discriminate].
      intros (code & p' & H).
      destruct (startProxy net_Listen (Mappings msg) p) as [[e|] q];
        discriminate. }
    destruct (String.eqb_spec (Action msg) "updateMappings") as [E|_].
    { rewrite E. split; [|discriminate]. intros (? & ? & ?). discriminate. }
    destruct (String.eqb_spec (Action msg) "stop") as [E|N].
    { split; [auto|]. eauto. }
    split; [|contradiction].
    intros (code & p' & H).
    destruct (String.eqb (Action msg) "ping"); discriminate.
  - intros code p' H.
    pose proof (dispatch_shape net_Listen msg p r) as Hs.
    rewrite H in Hs. exact Hs.
Qed.

(** X10. The mapping table is written by [start] and [updateMappings]
    only, and the server, the listener and the count of binds by [start]
    and [stop] only: a command that is neither [start] nor
    [updateMappings] leaves the table as it was, and one that is not
    [start] and does not exit leaves the instance as it was. *)
Theorem dispatch_frame
    (net_Listen : nat -> option string) (msg : Message) (p p' : Proc)
    (r r' : Reader)
    (Hstep : dispatch net_Listen msg p r = Continue p' r')
    (Hstart : Action msg <> "start") :
  r' = r
  /\ server p' = server p
  /\ listener p' = listener p
  /\ binds p' = binds p
  /\ (Action msg <> "updateMappings" -> hostMappings p' = hostMappings p).
Proof.
  unfold dispatch in Hstep.
  destruct (String.eqb_spec (Action msg) "start") as [E|_]; [contradiction|].
  destruct (String.eqb_spec (Action msg) "updateMappings") as [E|N].
  { inversion Hstep; subst. repeat split. contradiction. }
  destruct (String.eqb (Action msg) "stop"); [discriminate|].
  destruct (String.eqb (Action msg) "ping");
    inversion Hstep; subst; repeat split.
Qed.

Lemma dispatch_frame_witness :
  listener (sendMessage (event "pong") Sample.running)
  = listener Sample.running.
Proof.
  exact (proj1 (proj2 (proj2
    (dispatch_frame Sample.port_free (command "ping" ∅) Sample.running
       (sendMessage (event "pong") Sample.running)
       (Sample.stdin_of []) (Sample.stdin_of []) eq_refl
       ltac:(discriminate))))).
Defined.

(** ** Request handlers, path by path *)

Lemma added_app (p p' : Proc) (es : list Effect) :
  trace p' = app (trace p) es -> added p p' = es.
Proof. intros H. unfold added. rewrite H. apply drop_app_length. Qed.

Lemma sent_app (p p' : Proc) (es : list Effect) :
  trace p' = app (trace p) es ->
  sent p'
  = app (sent p)
        (omap (fun e => match e with Stdout m => Some m | _ => None end) es).
Proof. intros H. unfold sent. rewrite H. apply omap_app. Qed.

Ltac trace_norm :=
  cbn [trace emit sendMessage logToExtension];
  rewrite <- ?app_assoc; cbn [app].

Section HandlerPaths.

Variable net_SplitHostPort : string -> option (string * string).
Variable net_Dial : string -> option string.
Variable url_Hostname url_Port url_String : http.URL -> string.
Variable http_NewRequest :
  string -> string -> list byte -> result http.Request.
Variable CanonicalMIMEHeaderKey : string -> string.
Variable client_Do : http.Request -> result http.Response.

Lemma handleConnect_shape (w : http.ResponseWriter) (r : http.Request)
    (p : Proc) (host port : string) :
  match net_SplitHostPort (http.ReqHost r) with
  | Some hp => hp
  | None => (http.ReqHost r, "443")
  end = (host, port) ->
  let targetAddr := net.JoinHostPort (getTargetHost host p) port in
  let logged :=
    if String.eqb (getTargetHost host p) host then []
    else [Stdout (event_message "log"
                    ("Tunneling " ++ http.ReqHost r ++ " -> " ++ targetAddr))]
  in
  let p' := handleConnect net_SplitHostPort net_Dial w r p in
  hostMappings p' = hostMappings p
  /\ server p' = server p
  /\ listener p' = listener p
  /\ binds p' = binds p
  /\ trace p'
     = app (trace p)
         (app logged
            (Dial targetAddr
             :: match net_Dial targetAddr with
                | Some err =>
                    [Stdout (event_message "error"
                               ("Failed to connect to " ++ targetAddr
                                ++ ": " ++ err));
                     HttpError "Bad Gateway" http.StatusBadGateway]
                | None =>
                    if http.Hijacker w then
                      Hijack
                      :: match http.Hijack_err w with
                         | Some err =>
                             [ConnClose target;
                              HttpError err http.StatusInternalServerError]
                         | None =>
                             [ConnWrite client
                                ("HTTP/1.1 200 Connection Established"
                                 ++ CRLF ++ CRLF);
                              GoCopy target client;
                              GoCopy client target]
                         end
                    else
                      [ConnClose target;
                       HttpError "Hijacking not supported"
                         http.StatusInternalServerError]
                end)).
Proof.
  intros Hsplit. cbv zeta. unfold handleConnect. rewrite Hsplit.
  destruct (String.eqb (getTargetHost host p) host);
    destruct (net_Dial _); [| destruct (http.Hijacker w);
                               [destruct (http.Hijack_err w)|]
                           | | destruct (http.Hijacker w);
                               [destruct (http.Hijack_err w)|]];
    trace_norm; repeat split.
Qed.

(** X11. A CONNECT whose target is reached and whose client connection
    can be hijacked is set up in this order: the dial, the hijack, the
    literal line [HTTP/1.1 200 Connection Established] and an empty line
    written to the client, then the copy loop client to target and the
    copy loop target to client. Nothing but the log line of a
    substitution goes to the controller. *)
Theorem handleConnect_establishes_tunnel
    (w : http.ResponseWriter) (r : http.Request) (p : Proc)
    (host port : string)
    (Hsplit : match net_SplitHostPort (http.ReqHost r) with
              | Some hp => hp
              | None => (http.ReqHost r, "443")
              end = (host, port))
    (Hdial : net_Dial (net.JoinHostPort (getTargetHost host p) port) = None)
    (Hhijacker : http.Hijacker w = true)
    (Hhijack : http.Hijack_err w = None) :
  let targetAddr := net.JoinHostPort (getTargetHost host p) port in
  let logged :=
    if String.eqb (getTargetHost host p) host then []
    else [event_message "log"
            ("Tunneling " ++ http.ReqHost r ++ " -> " ++ targetAddr)] in
  let p' := handleConnect net_SplitHostPort net_Dial w r p in
  added p p'
  = app (map Stdout logged)
      [Dial targetAddr; Hijack;
       ConnWrite client
         ("HTTP/1.1 200 Connection Established" ++ CRLF ++ CRLF);
       GoCopy target client; GoCopy client target]
  /\ sent p' = app (sent p) logged.
Proof.
  cbv zeta.
  destruct (handleConnect_shape w r p host port Hsplit)
    as (_ & _ & _ & _ & Htrace).
  rewrite Hdial, Hhijacker, Hhijack in Htrace.
  rewrite (sent_app _ _ _ Htrace), (added_app _ _ _ Htrace), omap_app.
  destruct (String.eqb (getTargetHost host p) host); split; reflexivity.
Qed.

(** X12. When the target was reached but the tunnel cannot be set up,
    because the response writer is no hijacker or because the hijack
    fails, the connection to the target is closed again and the client
    gets a 500; no acknowledgment is written, no copy loop is started, and
    no [error] event goes to the controller. *)
Theorem handleConnect_hijack_failure_closes_target
    (w : http.ResponseWriter) (r : http.Request) (p : Proc)
    (host port err : string)
    (Hsplit : match net_SplitHostPort (http.ReqHost r) with
              | Some hp => hp
              | None => (http.ReqHost r, "443")
              end = (host, port))
    (Hdial : net_Dial (net.JoinHostPort (getTargetHost host p) port) = None)
    (Hfail : http.Hijacker w = false \/ http.Hijack_err w = Some err) :
  let targetAddr := net.JoinHostPort (getTargetHost host p) port in
  let logged :=
    if String.eqb (getTargetHost host p) host then []
    else [event_message "log"
            ("Tunneling " ++ http.ReqHost r ++ " -> " ++ targetAddr)] in
  let p' := handleConnect net_SplitHostPort net_Dial w r p in
  added p p'
  = app (map Stdout logged)
      (Dial targetAddr
       :: app (if http.Hijacker w then [Hijack] else [])
            [ConnClose target;
             HttpError
               (if http.Hijacker w then err else "Hijacking not supported")
               http.StatusInternalServerError])
  /\ sent p' = app (sent p) logged.
Proof.
  cbv zeta.
  destruct (handleConnect_shape w r p host port Hsplit)
    as (_ & _ & _ & _ & Htrace).
  rewrite Hdial in Htrace.
  assert (Hcase :
    (if http.Hijacker w
     then Hijack :: match http.Hijack_err w with
                    | Some err0 =>
                        [ConnClose target;
                         HttpError err0 http.StatusInternalServerError]
                    | None =>
                        [ConnWrite client
                           ("HTTP/1.1 200 Connection Established"
                            ++ CRLF ++ CRLF);
                         GoCopy target client; GoCopy client target]
                    end
     else [ConnClose target;
           HttpError "Hijacking not supported"
             http.StatusInternalServerError])
    = app (if http.Hijacker w then [Hijack] else [])
        [ConnClose target;
         HttpError (if http.Hijacker w then err
                    else "Hijacking not supported")
           http.StatusInternalServerError]).
  { destruct (http.Hijacker w); [|reflexivity].
    destruct Hfail as [Hf|Hf]; [discriminate|]. rewrite Hf. reflexivity. }
  rewrite Hcase in Htrace.
  rewrite (sent_app _ _ _ Htrace), (added_app _ _ _ Htrace), omap_app.
  destruct (String.eqb (getTargetHost host p) host);
    destruct (http.Hijacker w); split; reflexivity.
Qed.

(** X13. [handleConnect] dials exactly once in every case, and the
    address is the looked-up host joined to the port of the request; a
    request authority that does not split into host and port is used
    whole as the host, with port 443. *)
Theorem handleConnect_dials_once
    (w : http.ResponseWriter) (r : http.Request) (p : Proc) :
  let hp := match net_SplitHostPort (http.ReqHost r) with
            | Some hp => hp
            | None => (http.ReqHost r, "443")
            end in
  let p' := handleConnect net_SplitHostPort net_Dial w r p in
  List.filter is_Dial (added p p')
  = [Dial (net.JoinHostPort (getTargetHost hp.1 p) hp.2)].
Proof.
  cbv zeta.
  destruct (match net_SplitHostPort (http.ReqHost r) with
            | Some hp => hp
            | None => (http.ReqHost r, "443")
            end) as [host port] eqn:Hsplit.
  destruct (handleConnect_shape w r p host port Hsplit)
    as (_ & _ & _ & _ & Htrace).
  rewrite (added_app _ _ _ Htrace). cbn [fst snd].
  destruct (String.eqb (getTargetHost host p) host);
    destruct (net_Dial _); try destruct (http.Hijacker w);
    try destruct (http.Hijack_err w); reflexivity.
Qed.

Lemma handleHTTP_shape (r : http.Request) (p : Proc) :
  let host := url_Hostname (http.URL_ r) in
  let logged :=
    if String.eqb (getTargetHost host p) host then []
    else [Stdout (event_message "log"
                    ("Proxying HTTP " ++ host ++ " -> "
                     ++ getTargetHost host p))] in
  let p' := handleHTTP url_Hostname url_Port url_String http_NewRequest
              CanonicalMIMEHeaderKey client_Do r p in
  hostMappings p' = hostMappings p
  /\ server p' = server p
  /\ listener p' = listener p
  /\ binds p' = binds p
  /\ trace p'
     = app (trace p)
         (app logged
            match proxyRequest url_Hostname url_Port url_String
                    http_NewRequest CanonicalMIMEHeaderKey r p with
            | None => [HttpError "Bad Request" http.StatusBadRequest]
            | Some proxyReq =>
                ClientDo proxyReq
                :: match client_Do proxyReq with
                   | Err err =>
                       [Stdout (event_message "error"
                                  ("HTTP proxy error: " ++ Error err));
                        HttpError "Bad Gateway" http.StatusBadGateway]
                   | Ok resp => [Respond resp]
                   end
            end).
Proof.
  cbv zeta. unfold handleHTTP.
  destruct (String.eqb _ _);
    destruct (proxyRequest _ _ _ _ _ r p) as [proxyReq|];
    try destruct (client_Do proxyReq);
    trace_norm; repeat split.
Qed.

(** X14. When the outbound request of the forwarder fails, the
    controller gets one [error] event whose text is [HTTP proxy error: ]
    followed by the error, the client gets [502 Bad Gateway], and nothing
    is relayed. *)
Theorem handleHTTP_upstream_failure
    (r : http.Request) (p : Proc) (proxyReq : http.Request) (err : error)
    (Hreq : proxyRequest url_Hostname url_Port url_String http_NewRequest
              CanonicalMIMEHeaderKey r p = Some proxyReq)
    (Hdo : client_Do proxyReq = Err err) :
  let host := url_Hostname (http.URL_ r) in
  let logged :=
    if String.eqb (getTargetHost host p) host then []
    else [event_message "log"
            ("Proxying HTTP " ++ host ++ " -> " ++ getTargetHost host p)] in
  let p' := handleHTTP url_Hostname url_Port url_String http_NewRequest
              CanonicalMIMEHeaderKey client_Do r p in
  added p p'
  = app (map Stdout logged)
      [ClientDo proxyReq;
       Stdout (event_message "error" ("HTTP proxy error: " ++ Error err));
       HttpError "Bad Gateway" http.StatusBadGateway]
  /\ sent p'
     = app (sent p)
         (app logged
            [event_message "error" ("HTTP proxy error: " ++ Error err)]).
Proof.
  cbv zeta.
  destruct (handleHTTP_shape r p) as (_ & _ & _ & _ & Htrace).
  rewrite Hreq, Hdo in Htrace.
  rewrite (sent_app _ _ _ Htrace), (added_app _ _ _ Htrace), omap_app.
  destruct (String.eqb _ _); split; reflexivity.
Qed.

(** X15. A request that [http.NewRequest] refuses is answered
    [400 Bad Request] and goes no further: no outbound request is made
    and the controller hears nothing of it beyond the log line of a
    substitution. *)
Theorem handleHTTP_bad_request
    (r : http.Request) (p : Proc)
    (Hreq : proxyRequest url_Hostname url_Port url_String http_NewRequest
              CanonicalMIMEHeaderKey r p = None) :
  let host := url_Hostname (http.URL_ r) in
  let logged :=
    if String.eqb (getTargetHost host p) host then []
    else [event_message "log"
            ("Proxying HTTP " ++ host ++ " -> " ++ getTargetHost host p)] in
  let p' := handleHTTP url_Hostname url_Port url_String http_NewRequest
              CanonicalMIMEHeaderKey client_Do r p in
  added p p'
  = app (map Stdout logged)
      [HttpError "Bad Request" http.StatusBadRequest]
  /\ sent p' = app (sent p) logged.
Proof.
  cbv zeta.
  destruct (handleHTTP_shape r p) as (_ & _ & _ & _ & Htrace).
  rewrite Hreq in Htrace.
  rewrite (sent_app _ _ _ Htrace), (added_app _ _ _ Htrace), omap_app.
  destruct (String.eqb _ _); split; reflexivity.
Qed.

(** X16. Every request gets exactly one answer, whichever handler takes
    it and whichever way it goes: one error status, or one relayed
    response, or the one acknowledgment written on the hijacked
    connection. *)
Theorem proxyHandler_answers_once
    (w : http.ResponseWriter) (r : http.Request) (p : Proc) :
  length (List.filter answer
            (added p
               (proxyHandler net_SplitHostPort net_Dial url_Hostname url_Port
                  url_String http_NewRequest CanonicalMIMEHeaderKey client_Do
                  w r p)))
  = 1%nat.
Proof.
  unfold proxyHandler. destruct (String.eqb _ _).
  - destruct (match net_SplitHostPort (http.ReqHost r) with
              | Some hp => hp
              | None => (http.ReqHost r, "443")
              end) as [host port] eqn:Hsplit.
    destruct (handleConnect_shape w r p host port Hsplit)
      as (_ & _ & _ & _ & Htrace).
    rewrite (added_app _ _ _ Htrace).
    destruct (String.eqb (getTargetHost host p) host);
      destruct (net_Dial _); try destruct (http.Hijacker w);
      try destruct (http.Hijack_err w); reflexivity.
  - destruct (handleHTTP_shape r p) as (_ & _ & _ & _ & Htrace).
    rewrite (added_app _ _ _ Htrace).
    destruct (String.eqb _ _);
      destruct (proxyRequest _ _ _ _ _ r p) as [proxyReq|];
      try destruct (client_Do proxyReq); reflexivity.
Qed.

(** X17. Serving a request never writes a variable of the process: the
    mapping table, the server, the listener and the count of binds are
    after [proxyHandler] what they were before, and the trace has only
    grown. *)
Theorem proxyHandler_frame
    (w : http.ResponseWriter) (r : http.Request) (p : Proc) :
  let p' := proxyHandler net_SplitHostPort net_Dial url_Hostname url_Port
              url_String http_NewRequest CanonicalMIMEHeaderKey client_Do
              w r p in
  hostMappings p' = hostMappings p
  /\ server p' = server p
  /\ listener p' = listener p
  /\ binds p' = binds p
  /\ trace p' = app (trace p) (added p p')
  /\ (forall h, getTargetHost h p' = getTargetHost h p).
Proof.
  cbv zeta. unfold proxyHandler.
  assert (Hgen : forall q,
    hostMappings q = hostMappings p ->
    (exists es, trace q = app (trace p) es) ->
    trace q = app (trace p) (added p q)
    /\ (forall h, getTargetHost h q = getTargetHost h p)).
  { intros q Hm [es Hes]. split.
    - rewrite (added_app _ _ _ Hes). exact Hes.
    - intros h. unfold getTargetHost. rewrite Hm. reflexivity. }
  destruct (String.eqb _ _).
  - destruct (match net_SplitHostPort (http.ReqHost r) with
              | Some hp => hp
              | None => (http.ReqHost r, "443")
              end) as [host port] eqn:Hsplit.
    destruct (handleConnect_shape w r p host port Hsplit)
      as (Hm & Hs & Hl & Hb & Htrace).
    destruct (Hgen _ Hm (ex_intro _ _ Htrace)) as [Ht Hg].
    auto 10.
  - destruct (handleHTTP_shape r p) as (Hm & Hs & Hl & Hb & Htrace).
    destruct (Hgen _ Hm (ex_intro _ _ Htrace)) as [Ht Hg].
    auto 10.
Qed.

End HandlerPaths.

Lemma handleConnect_establishes_tunnel_witness :
  added (set_hostMappings Sample.table_a2 boot)
    (handleConnect Sample.net_SplitHostPort Sample.all_reached
       Sample.plain_writer Sample.connect_a
       (set_hostMappings Sample.table_a2 boot))
  = [Stdout (event_message "log" "Tunneling a:443 -> 127.0.0.2:443");
     Dial "127.0.0.2:443"; Hijack;
     ConnWrite client
       ("HTTP/1.1 200 Connection Established" ++ CRLF ++ CRLF);
     GoCopy target client; GoCopy client target].
Proof.
  exact (proj1 (handleConnect_establishes_tunnel Sample.net_SplitHostPort
                  Sample.all_reached Sample.plain_writer Sample.connect_a
                  (set_hostMappings Sample.table_a2 boot) "a" "443"
                  eq_refl eq_refl eq_refl eq_refl)).
Defined.

Lemma handleConnect_hijack_failure_closes_target_witness :
  added boot
    (handleConnect Sample.net_SplitHostPort Sample.all_reached
       Sample.no_hijacker Sample.connect_a boot)
  = [Dial "a:443"; ConnClose target;
     HttpError "Hijacking not supported" 500].
Proof.
  exact (proj1 (handleConnect_hijack_failure_closes_target
                  Sample.net_SplitHostPort Sample.all_reached
                  Sample.no_hijacker Sample.connect_a boot "a" "443" ""
                  eq_refl eq_refl (or_introl eq_refl))).
Defined.

Lemma handleHTTP_upstream_failure_witness :
  sent (handleHTTP Sample.url_Hostname Sample.url_Port Sample.url_String
          Sample.http_NewRequest Sample.canonical Sample.upstream_down
          Sample.get_a (set_hostMappings Sample.table_a3 boot))
  = [event_message "log" "Proxying HTTP a -> 127.0.0.3";
     event_message "error"
       ("HTTP proxy error: "
        ++ "dial tcp 127.0.0.3:80: connect: connection refused")].
Proof.
  exact (proj2 (handleHTTP_upstream_failure Sample.url_Hostname
                  Sample.url_Port Sample.url_String Sample.http_NewRequest
                  Sample.canonical Sample.upstream_down Sample.get_a
                  (set_hostMappings Sample.table_a3 boot)
                  _ _ eq_refl eq_refl)).
Defined.

Lemma handleHTTP_bad_request_witness :
  added boot
    (handleHTTP Sample.url_Hostname Sample.url_Port Sample.url_String
       Sample.refusing_NewRequest Sample.canonical Sample.upstream_down
       Sample.get_a boot)
  = [HttpError "Bad Request" 400].
Proof.
  exact (proj1 (handleHTTP_bad_request Sample.url_Hostname Sample.url_Port
                  Sample.url_String Sample.refusing_NewRequest
                  Sample.canonical Sample.upstream_down Sample.get_a boot
                  eq_refl)).
Defined.

(** ** Header copying *)

Lemma foldl_Add_lookup (canon : string -> string) (key : string)
    (vs : list string) :
  forall (acc : http.Header) (k : string),
    foldl (fun a v => http.Add canon a key v) acc vs !! k
    = if decide (k = canon key) then
        match vs with
        | [] => acc !! k
        | _ :: _ => Some (app (default [] (acc !! k)) vs)
        end
      else acc !! k.
Proof.
  unfold http.Header.
  induction vs as [|v vs IH]; intros acc k.
  - simpl. destruct (decide _); reflexivity.
  - cbn [foldl]. rewrite IH. unfold http.Add.
    destruct (decide (k = canon key)) as [->|Hne].
    + assert (E : forall x : list string,
                 (<[canon key := x]> acc : gmap string (list string))
                 !! canon key = Some x)
        by (intros x; apply lookup_insert_eq).
      rewrite E.
      destruct vs; [reflexivity|].
      unfold default at 1. cbn [from_option id].
      rewrite <- app_assoc. reflexivity.
    + apply lookup_insert_ne. congruence.
Qed.

Lemma AddAll_lookup (canon : string -> string) (dst src : http.Header) :
  (forall key vs, src !! key = Some vs -> canon key = key) ->
  forall k,
    http.AddAll canon dst src !! k
    = match src !! k with
      | Some (v :: vs) => Some (app (default [] (dst !! k)) (v :: vs))
      | _ => dst !! k
      end.
Proof.
  unfold http.AddAll, http.Header in *.
  apply (map_fold_weak_ind
    (fun (res m : gmap string (list string)) =>
       (forall key vs, m !! key = Some vs -> canon key = key) ->
       forall k,
         res !! k
         = match m !! k with
           | Some (v :: vs) => Some (app (default [] (dst !! k)) (v :: vs))
           | _ => dst !! k
           end)).
  - intros _ k. rewrite lookup_empty. reflexivity.
  - intros i x m res Hfresh IH Hcanon k.
    assert (Hi : canon i = i).
    { apply (Hcanon i x). apply lookup_insert_eq. }
    assert (Hm : forall key vs, m !! key = Some vs -> canon key = key).
    { intros key vs Hk. apply (Hcanon key vs).
      rewrite lookup_insert_ne; [exact Hk|]. intros ->. congruence. }
    specialize (IH Hm).
    rewrite foldl_Add_lookup, Hi.
    destruct (decide (k = i)) as [->|Hne].
    + rewrite lookup_insert_eq, IH, Hfresh.
      destruct x; reflexivity.
    + rewrite lookup_insert_ne by congruence. apply IH.
Qed.

Section HeaderCopy.

Variable url_Hostname url_Port url_String : http.URL -> string.
Variable http_NewRequest :
  string -> string -> list byte -> result http.Request.
Variable CanonicalMIMEHeaderKey : string -> string.

(** X18. The request the forwarder sends carries every header of the
    inbound request with all its values in order, apart from [Host],
    which is set to the one value of the original hostname; method, URL
    and body are those [http.NewRequest] produced. A header name the
    inbound map holds with no values at all is not carried over. This is
    for header names in canonical form, as the server keeps them. *)
Theorem proxyRequest_copies_headers
    (r : http.Request) (p : Proc) (req0 : http.Request)
    (Hnew :
       http_NewRequest (http.Method r)
         (url_String
            {| http.Scheme := http.Scheme (http.URL_ r);
               http.Host :=
                 net.JoinHostPort
                   (getTargetHost (url_Hostname (http.URL_ r)) p)
                   (if String.eqb (url_Port (http.URL_ r)) "" then "80"
                    else url_Port (http.URL_ r));
               http.Path := http.Path (http.URL_ r);
               http.RawQuery := http.RawQuery (http.URL_ r) |})
         (http.Body r) = Ok req0)
    (Hfresh : http.Fields req0 = ∅)
    (Hkeys : forall key vs,
        http.Fields r !! key = Some vs -> CanonicalMIMEHeaderKey key = key)
    (Hhost : CanonicalMIMEHeaderKey "Host" = "Host") :
  exists proxyReq,
    proxyRequest url_Hostname url_Port url_String http_NewRequest
      CanonicalMIMEHeaderKey r p = Some proxyReq
    /\ http.Method proxyReq = http.Method req0
    /\ http.URL_ proxyReq = http.URL_ req0
    /\ http.Body proxyReq = http.Body req0
    /\ http.Fields proxyReq !! "Host" = Some [url_Hostname (http.URL_ r)]
    /\ forall k,
         k <> "Host" ->
         http.Fields proxyReq !! k
         = match http.Fields r !! k with
           | Some (v :: vs) => Some (v :: vs)
           | _ => None
           end.
Proof.
  unfold proxyRequest. rewrite Hnew.
  eexists. split; [reflexivity|]. cbn [http.Method http.URL_ http.Body
    http.Fields].
  repeat split.
  - unfold http.Set_. rewrite Hhost. apply lookup_insert_eq.
  - intros k Hk. unfold http.Set_. rewrite Hhost.
    etransitivity; [apply lookup_insert_ne; congruence|].
    rewrite (AddAll_lookup _ _ _ Hkeys), Hfresh.
    replace ((∅ : http.Header) !! k) with (@None (list string))
      by (symmetry; apply lookup_empty).
    destruct (http.Fields r !! k) as [[|v vs]|]; reflexivity.
Qed.

End HeaderCopy.

Lemma proxyRequest_copies_headers_witness :
  exists proxyReq,
    proxyRequest Sample.url_Hostname Sample.url_Port Sample.url_String
      Sample.http_NewRequest Sample.canonical Sample.get_a
      (set_hostMappings Sample.table_a3 boot) = Some proxyReq
    /\ http.Fields proxyReq !! "Accept" = Some ["*/*"].
Proof.
  destruct (proxyRequest_copies_headers Sample.url_Hostname Sample.url_Port
              Sample.url_String Sample.http_NewRequest Sample.canonical
              Sample.get_a (set_hostMappings Sample.table_a3 boot)
              {| http.Method := "GET";
                 http.URL_ := {| http.Scheme := "http";
                                 http.Host := "127.0.0.3:80";
                                 http.Path := "/"; http.RawQuery := "" |};
                 http.ReqHost := "127.0.0.3:80";
                 http.Fields := ∅;
                 http.Body := [] |}
              eq_refl eq_refl (fun key vs _ => eq_refl) eq_refl)
    as (proxyReq & Hreq & _ & _ & _ & _ & Hcopy).
  exists proxyReq. split; [exact Hreq|].
  rewrite (Hcopy "Accept") by discriminate. reflexivity.
Defined.

(** ** The controller *)

Lemma getActiveMappings_enabled
    (hostMappings : gmap string background.Config) (h : string)
    (config : background.Config) :
  hostMappings !! h = Some config ->
  background.enabled config = true ->
  h <> "__proto__" ->
  background.getActiveMappings hostMappings !! h
  = Some (background.ip config).
Proof.
  intros Hlook Hon Hname. unfold background.getActiveMappings.
  rewrite lookup_fmap.
  rewrite (proj2 (map_lookup_filter_Some _ hostMappings h config)); auto.
Qed.

(** X19. The table the controller sends to the proxy holds exactly the
    enabled entries of its own, each under its hostname with its [ip]:
    a disabled entry is never sent, and neither is an entry the
    controller does not have. (The name [__proto__] cannot be carried by
    the object that is sent.) *)
Theorem getActiveMappings_lookup
    (hostMappings : gmap string background.Config) (h : string) :
  background.getActiveMappings hostMappings !! h
  = match hostMappings !! h with
    | Some config =>
        if background.enabled config && negb (String.eqb h "__proto__")
        then Some (background.ip config)
        else None
    | None => None
    end.
Proof.
  unfold background.getActiveMappings.
  rewrite lookup_fmap, map_lookup_filter.
  destruct (hostMappings !! h) as [config|]; [|reflexivity].
  cbn. destruct (background.enabled config);
    destruct (String.eqb_spec h "__proto__") as [E|N]; cbn.
  - rewrite option_guard_False; [reflexivity|]. intros [_ H]. auto.
  - rewrite option_guard_True; [reflexivity|]. auto.
  - rewrite option_guard_False; [reflexivity|]. intros [H _]. discriminate.
  - rewrite option_guard_False; [reflexivity|]. intros [H _]. discriminate.
Qed.

(** X20. Where the extension sends a request: to the local proxy on its
    port exactly when the tab is an enabled one, the hostname has an
    enabled entry and the proxy is ready; to the dead port 1 exactly when
    the tab and the entry are enabled but the proxy is not ready; and
    direct in every other case, that is for a request of no tab, of a tab
    not enabled, or for a hostname with no enabled entry. *)
Theorem handleProxyRequest_routes
    (hostMappings : gmap string background.Config) (enabledTabs : gset Z)
    (proxyReady : bool) (requestInfo : background.RequestInfo) :
  let mapped :=
    background.tabId requestInfo <> -1
    /\ background.tabId requestInfo ∈ enabledTabs
    /\ exists config,
         hostMappings !! background.hostname requestInfo = Some config
         /\ background.enabled config = true in
  let verdict :=
    background.handleProxyRequest hostMappings enabledTabs proxyReady
      requestInfo in
  (verdict = background.http_proxy "127.0.0.1" background.PROXY_PORT
   <-> mapped /\ proxyReady = true)
  /\ (verdict = background.http_proxy "127.0.0.1" 1
      <-> mapped /\ proxyReady = false)
  /\ (verdict = background.direct <-> ~ mapped).
Proof.
  cbv zeta.
  set (mapped :=
    background.tabId requestInfo <> -1
    /\ background.tabId requestInfo ∈ enabledTabs
    /\ exists config,
         hostMappings !! background.hostname requestInfo = Some config
         /\ background.enabled config = true).
  assert (Hcases :
    (mapped /\ background.handleProxyRequest hostMappings enabledTabs
                 proxyReady requestInfo
               = if proxyReady
                 then background.http_proxy "127.0.0.1"
                        background.PROXY_PORT
                 else background.http_proxy "127.0.0.1" 1)
    \/ (~ mapped /\ background.handleProxyRequest hostMappings enabledTabs
                      proxyReady requestInfo = background.direct)).
  { unfold background.handleProxyRequest, mapped.
    destruct (bool_decide_reflect (background.tabId requestInfo = -1))
      as [Hno|Htab]; cbn [orb]; [right; tauto|].
    destruct (bool_decide_reflect
                (background.tabId requestInfo ∈ enabledTabs))
      as [Hin|Hout]; cbn [negb]; [|right; tauto].
    destruct (hostMappings !! background.hostname requestInfo)
      as [config|].
    - destruct (background.enabled config) eqn:Een.
      + left. split; [eauto 10|]. destruct proxyReady; reflexivity.
      + right. split; [|reflexivity].
        intros (_ & _ & c & H & Hc). inversion H; subst. congruence.
    - right. split; [|reflexivity].
      intros (_ & _ & c & H & _). discriminate. }
  clearbody mapped.
  destruct Hcases as [[Hm ->]|[Hm ->]]; destruct proxyReady;
    unfold background.PROXY_PORT; intuition congruence.
Qed.

(** X21. Controller and proxy agree, but for one name. A hostname the
    extension routes to the local proxy has an enabled entry of its own;
    when the controller pushes its table with [updateProxyMappings] and
    the proxy has taken that [updateMappings] command, the proxy
    substitutes the [ip] of that entry for the hostname, unless the
    hostname is [__proto__]: that entry is not in the pushed table, and
    the proxy leaves the name as it is. The port the extension routes to
    is the port the proxy listens on. *)
Theorem routed_host_is_substituted
    (net_Listen : nat -> option string)
    (hostMappings : gmap string background.Config) (enabledTabs : gset Z)
    (proxyReady : bool) (requestInfo : background.RequestInfo) (p : Proc)
    (r : Reader)
    (Hrouted :
       background.handleProxyRequest hostMappings enabledTabs proxyReady
         requestInfo
       = background.http_proxy "127.0.0.1" background.PROXY_PORT) :
  exists config p',
    hostMappings !! background.hostname requestInfo = Some config
    /\ background.enabled config = true
    /\ match background.updateProxyMappings true proxyReady hostMappings with
       | Some msg => dispatch net_Listen msg p r = Continue p' r
       | None => False
       end
    /\ getTargetHost (background.hostname requestInfo) p'
       = (if String.eqb (background.hostname requestInfo) "__proto__"
          then background.hostname requestInfo
          else background.ip config)
    /\ background.PROXY_PORT = proxyPort.
Proof.
  unfold background.handleProxyRequest in Hrouted.
  destruct (bool_decide _ || negb (bool_decide _)); [discriminate|].
  destruct (hostMappings !! background.hostname requestInfo)
    as [config|] eqn:Elook; [|discriminate].
  destruct (background.enabled config) eqn:Een; [|discriminate].
  destruct proxyReady; [|discriminate].
  exists config,
    (updateMappings (background.getActiveMappings hostMappings) p).
  split; [reflexivity|]. split; [exact Een|].
  split; [reflexivity|]. split; [|reflexivity].
  unfold getTargetHost, updateMappings.
  simpl.
  destruct (String.eqb_spec (background.hostname requestInfo) "__proto__")
    as [Hproto|Hname].
  - assert (Hnone :
      background.getActiveMappings hostMappings
        !! background.hostname requestInfo = None).
    { unfold background.getActiveMappings.
      rewrite lookup_fmap, map_lookup_filter, Elook. cbn.
      rewrite option_guard_False; [reflexivity|].
      intros [_ H]. apply H. exact Hproto. }
    rewrite Hnone. reflexivity.
  - rewrite (getActiveMappings_enabled _ _ config Elook Een Hname).
    reflexivity.
Qed.

Lemma routed_host_is_substituted_witness :
  getTargetHost "a"
    (updateMappings (background.getActiveMappings Sample.controller_table)
       Sample.running)
  = "127.0.0.3".
Proof.
  destruct (routed_host_is_substituted Sample.port_free
              Sample.controller_table Sample.enabled_tabs true
              Sample.request_on_tab Sample.running (Sample.stdin_of [])
              ltac:(vm_compute; reflexivity))
    as (config & p' & Hlook & _ & Hstep & Hsub & _).
  cbn in Hstep. inversion Hstep; subst p'.
  transitivity (background.ip config); [exact Hsub|].
  vm_compute in Hlook. inversion Hlook. reflexivity.
Defined.

(** ** Controller and proxy together *)

(** X22. The handshake on a free port. To the [ready] of the proxy the
    controller answers with one [start] carrying its enabled entries; the
    proxy, fresh from its [ready], binds, installs exactly that table and
    answers [started] with its port; on that the controller marks the
    proxy ready, clears the error and connecting flags and resolves the
    pending connect. *)
Theorem handshake_on_free_port
    (net_Listen : nat -> option string) (s : background.Controller)
    (r : Reader) (Hfree : net_Listen 0%nat = None) :
  let active := background.getActiveMappings (background.hostMappings s) in
  let s1 := (background.onMessage (event "ready") s).1 in
  let s2 := (background.onMessage (event_started proxyPort) s1).1 in
  (background.onMessage (event "ready") s).2
    = [background.Post (command "start" active)]
  /\ (exists p',
        dispatch net_Listen (command "start" active)
          (sendMessage (event "ready") boot) r = Continue p' r
        /\ sent p' = [event "ready"; event_started proxyPort]
        /\ hostMappings p' = active
        /\ listener p' = Some 0%nat)
  /\ (background.onMessage (event_started proxyPort) s1).2
     = [background.Resolve]
  /\ background.proxyReady s2 = true
  /\ background.proxyError s2 = false
  /\ background.proxyConnecting s2 = false
  /\ background.hostMappings s2 = background.hostMappings s.
Proof.
  cbv zeta. split; [reflexivity|]. split; [|repeat split].
  destruct (startProxy_bound net_Listen
              (background.getActiveMappings (background.hostMappings s))
              (sendMessage (event "ready") boot) eq_refl Hfree)
    as (p' & Hstart & Hm & Hl & Hs & Htrace).
  exists p'. split.
  { unfold dispatch. cbn [Action command Mappings]. simpl String.eqb.
    cbv iota. rewrite Hstart. reflexivity. }
  split; [|split; [exact Hm|exact Hl]].
  unfold sent. rewrite Htrace. reflexivity.
Qed.

Lemma handshake_on_free_port_witness :
  background.proxyReady
    (background.onMessage (event_started proxyPort)
       (background.onMessage (event "ready") Sample.connecting).1).1
  = true.
Proof.
  exact (proj1 (proj2 (proj2 (proj2
    (handshake_on_free_port Sample.port_free Sample.connecting
       (Sample.stdin_of []) eq_refl))))).
Defined.

(** X23. The handshake on a taken port. When the bind fails the proxy
    answers the [start] with an [error] event that carries the bind
    error; the controller then sets its error flag, leaves the proxy
    marked not ready, and rejects the pending connect with that text; and
    as long as it stays so, a request of an enabled tab for an enabled
    entry is sent to the dead port 1, neither direct nor to the proxy. *)
Theorem handshake_on_taken_port
    (net_Listen : nat -> option string) (s : background.Controller)
    (r : Reader) (text : string)
    (requestInfo : background.RequestInfo) (config : background.Config)
    (Htaken : net_Listen 0%nat = Some text)
    (Hunready : background.proxyReady s = false)
    (Htab : background.tabId requestInfo <> -1)
    (Hin : background.tabId requestInfo ∈ background.enabledTabs s)
    (Hentry : background.hostMappings s !! background.hostname requestInfo
              = Some config)
    (Hon : background.enabled config = true) :
  let active := background.getActiveMappings (background.hostMappings s) in
  let s1 := (background.onMessage (event "ready") s).1 in
  let failure :=
    event_message "error" ("Failed to start proxy: " ++ text) in
  let s2 := (background.onMessage failure s1).1 in
  (exists p',
     dispatch net_Listen (command "start" active)
       (sendMessage (event "ready") boot) r = Continue p' r
     /\ sent p' = [event "ready"; failure]
     /\ listener p' = None)
  /\ (background.onMessage failure s1).2
     = [background.Reject ("Failed to start proxy: " ++ text)]
  /\ background.proxyError s2 = true
  /\ background.proxyReady s2 = false
  /\ background.proxyConnecting s2 = false
  /\ background.handleProxyRequest (background.hostMappings s2)
       (background.enabledTabs s2) (background.proxyReady s2) requestInfo
     = background.http_proxy "127.0.0.1" 1.
Proof.
  cbv zeta. split.
  { eexists. split.
    - unfold dispatch, startProxy. cbn [Action command Mappings].
      simpl String.eqb. cbv iota.
      cbn [listener sendMessage emit boot binds set_hostMappings].
      rewrite Htaken. reflexivity.
    - split; reflexivity. }
  split; [reflexivity|]. split; [reflexivity|].
  split; [exact Hunready|]. split; [reflexivity|].
  cbn. rewrite Hunready. unfold background.handleProxyRequest.
  rewrite (bool_decide_eq_false_2 _ Htab), (bool_decide_eq_true_2 _ Hin).
  cbn [orb negb]. rewrite Hentry, Hon. reflexivity.
Qed.

Lemma handshake_on_taken_port_witness :
  background.proxyError
    (background.onMessage
       (event_message "error"
          ("Failed to start proxy: "
           ++ "listen tcp 127.0.0.1:8899: bind: address already in use"))
       (background.onMessage (event "ready") Sample.connecting).1).1
  = true.
Proof.
  exact (proj1 (proj2 (proj2
    (handshake_on_taken_port Sample.port_taken Sample.connecting
       (Sample.stdin_of [])
       "listen tcp 127.0.0.1:8899: bind: address already in use"
       Sample.request_on_tab
       {| background.ip := "127.0.0.3"; background.enabled := true |}
       eq_refl eq_refl ltac:(discriminate)
       ltac:(vm_compute; reflexivity) ltac:(vm_compute; reflexivity)
       eq_refl)))).
Defined.
